(** * image-rename: the date-index collector and the tag engine

    A shallow embedding of the Go sources of image-rename (the [lib]
    collector and the [main] package that extracts, resolves and substitutes
    the tags of an output pattern), with the properties of its specification
    stated and proved over it. *)

From Stdlib Require Import ZArith Lia Ascii String DecimalString.
From stdpp Require Import base option list gmap strings.

Local Open Scope Z_scope.

(** ** Go values *)

(** Go's [int] (64 bit): a [Z] kept in the signed range by [wrap]. *)
Module GoInt.

Definition max_int : Z := 2 ^ 63 - 1.
Definition min_int : Z := - 2 ^ 63.

Definition wrap (z : Z) : Z := (z + 2 ^ 63) mod 2 ^ 64 - 2 ^ 63.

Definition add (a b : Z) : Z := wrap (a + b).

(** [x++] *)
Definition incr (a : Z) : Z := add a 1.

End GoInt.

(** Go's [error]: [None] is the nil error, [Some msg] an error value. *)
Definition error : Type := option string.
Definition nil : error := None.

(** The outcome of a library call whose value the code only uses when the
    error is nil. *)
Inductive result (A : Type) : Type :=
| Ok (a : A)
| Fail (msg : string).
Arguments Ok {A} a.
Arguments Fail {A} msg.

(** A [time.Time], as the program observes it: the results of the accessors
    that the collector and [TimestampProp] call. [Format_RFC3339] is
    [t.Format(time.RFC3339)], [Location] is [t.Location().String()]. *)
Record Time : Type := mkTime {
  Year : Z;
  Month : Z;
  Day : Z;
  Hour : Z;
  Minute : Z;
  Second : Z;
  Nanosecond : Z;
  Unix : Z;
  Weekday : string;
  Location : string;
  Format_RFC3339 : string
}.

(** The zero value [time.Time{}]: January 1, year 1, 00:00:00 UTC. *)
Definition zeroTime : Time :=
  {| Year := 1; Month := 1; Day := 1; Hour := 0; Minute := 0; Second := 0;
     Nanosecond := 0; Unix := -62135596800; Weekday := "Monday";
     Location := "UTC"; Format_RFC3339 := "0001-01-01T00:00:00Z" |}.

(** ** lib: DateIndexCollector *)

Record DateIndexCollector : Type := mkCollector {
  Count : Z;
  ByYear : gmap Z Z;
  ByMonth : gmap Z (gmap Z Z);
  ByDay : gmap Z (gmap Z (gmap Z Z))
}.

(** The methods act on the collector they receive: a method is a computation
    over the collector's state. *)
Definition Coll (A : Type) : Type := DateIndexCollector -> A * DateIndexCollector.

Definition ret {A} (a : A) : Coll A := fun c => (a, c).
Definition bind {A B} (m : Coll A) (k : A -> Coll B) : Coll B :=
  fun c => let (a, c') := m c in k a c'.
Definition gets {A} (f : DateIndexCollector -> A) : Coll A := fun c => (f c, c).
Definition modify (f : DateIndexCollector -> DateIndexCollector) : Coll unit :=
  fun c => (tt, f c).

Declare Scope coll_scope.
Delimit Scope coll_scope with coll.
Notation "x <- m ;; k" := (bind m (fun x => k))
  (at level 100, m at next level, right associativity) : coll_scope.
Notation "m ;; k" := (bind m (fun _ => k))
  (at level 100, right associativity) : coll_scope.

Definition set_Count (f : Z -> Z) (c : DateIndexCollector) : DateIndexCollector :=
  mkCollector (f (Count c)) (ByYear c) (ByMonth c) (ByDay c).
Definition set_ByYear (f : gmap Z Z -> gmap Z Z) (c : DateIndexCollector) :=
  mkCollector (Count c) (f (ByYear c)) (ByMonth c) (ByDay c).
Definition set_ByMonth (f : gmap Z (gmap Z Z) -> gmap Z (gmap Z Z))
    (c : DateIndexCollector) :=
  mkCollector (Count c) (ByYear c) (f (ByMonth c)) (ByDay c).
Definition set_ByDay
    (f : gmap Z (gmap Z (gmap Z Z)) -> gmap Z (gmap Z (gmap Z Z)))
    (c : DateIndexCollector) :=
  mkCollector (Count c) (ByYear c) (ByMonth c) (f (ByDay c)).

(** [m[k]++] on a map of counters: a missing key reads as 0. *)
Definition map_incr (k : Z) (m : gmap Z Z) : gmap Z Z :=
  <[k := GoInt.incr (default 0 (m !! k))]> m.

(** [_, ok := m[k]] *)
Definition has_key {V} (k : Z) (m : gmap Z V) : bool := bool_decide (is_Some (m !! k)).

Definition NewDateIndexCollector : DateIndexCollector :=
  {| Count := 0; ByYear := ∅; ByMonth := ∅; ByDay := ∅ |}.

Definition Len : Coll Z := gets Count.

(** [Add]: one line of the model per statement of the method. The nested
    maps are updated in place ([alter]) once the guards have created them. *)
Definition Add (timestamp : Time) : Coll unit :=
  (modify (set_Count GoInt.incr) ;;
   modify (set_ByYear (map_incr (Year timestamp))) ;;
   hasYear <- gets (fun c => has_key (Year timestamp) (ByMonth c)) ;;
   (if hasYear then ret tt
    else modify (set_ByMonth <[Year timestamp := ∅]>)) ;;
   modify (set_ByMonth (alter (map_incr (Month timestamp)) (Year timestamp))) ;;
   hasYear <- gets (fun c => has_key (Year timestamp) (ByDay c)) ;;
   (if hasYear then ret tt
    else modify (set_ByDay <[Year timestamp := ∅]>)) ;;
   hasMonth <- gets (fun c =>
     has_key (Month timestamp) (default ∅ (ByDay c !! Year timestamp))) ;;
   (if hasMonth then ret tt
    else modify (set_ByDay (alter <[Month timestamp := ∅]> (Year timestamp)))) ;;
   modify (set_ByDay
     (alter (alter (map_incr (Day timestamp)) (Month timestamp)) (Year timestamp))))%coll.

Definition GetIndexByYear (timestamp : Time) : Coll Z :=
  gets (fun dtic => default 0 (ByYear dtic !! Year timestamp)).

Definition GetIndexByMonth (timestamp : Time) : Coll Z :=
  gets (fun dtic =>
    match ByMonth dtic !! Year timestamp with
    | Some months =>
        match months !! Month timestamp with
        | Some monthIndex => monthIndex
        | None => 0
        end
    | None => 0
    end).

Definition GetIndexByDay (timestamp : Time) : Coll Z :=
  gets (fun dtic =>
    match ByDay dtic !! Year timestamp with
    | Some months =>
        match months !! Month timestamp with
        | Some days =>
            match days !! Day timestamp with
            | Some dayIndex => dayIndex
            | None => 0
            end
        | None => 0
        end
    | None => 0
    end).

(** The collector after a sequence of [Add] calls. *)
Definition AddAll (timestamps : list Time) (c : DateIndexCollector) : DateIndexCollector :=
  foldl (fun c t => snd (Add t c)) c timestamps.

(** Reading the fields as Go reads a map: [ByYear[y]], [ByMonth[y][m]] and
    [ByDay[y][m][d]], where a missing key (or a missing inner map) reads as
    the zero value. *)
Definition year_count (c : DateIndexCollector) (y : Z) : Z :=
  default 0 (ByYear c !! y).
Definition month_count (c : DateIndexCollector) (y m : Z) : Z :=
  default 0 (default ∅ (ByMonth c !! y) !! m).
Definition day_count (c : DateIndexCollector) (y m d : Z) : Z :=
  default 0 (default ∅ (default ∅ (ByDay c !! y) !! m) !! d).

(** How many of the timestamps fall in a year, a month, a day. *)
Definition in_year (y : Z) (ts : list Time) : Z :=
  Z.of_nat (length (filter (fun t => Year t = y) ts)).
Definition in_month (y m : Z) (ts : list Time) : Z :=
  Z.of_nat (length (filter (fun t => Year t = y /\ Month t = m) ts)).
Definition in_day (y m d : Z) (ts : list Time) : Z :=
  Z.of_nat (length (filter (fun t => Year t = y /\ Month t = m /\ Day t = d) ts)).

(** ** Go's library functions, as far as the program calls them

    Go strings are byte sequences: [string] here. The braces, ['.'], ['|']
    and ['/'] are single bytes that never occur inside a multi-byte UTF-8
    sequence, so scanning a well-formed string by bytes finds them where
    scanning it by runes does. *)

Definition newline : string := String (ascii_of_nat 10) EmptyString.

(** [strconv.Itoa], [strconv.FormatInt(_, 10)] *)
Definition strconv_Itoa (n : Z) : string := NilZero.string_of_int (Z.to_int n).

(** [width] copies of ['0'] *)
Fixpoint zeros (width : nat) : string :=
  match width with
  | O => EmptyString
  | S w => String "0" (zeros w)
  end.

(** [fmt.Sprintf("%0<width>d", n)]: the sign first, then the decimal digits
    padded with zeros up to [width] characters in all. *)
Definition Sprintf_0d (width : nat) (n : Z) : string :=
  let digits := NilZero.string_of_uint (N.to_uint (Z.abs_N n)) in
  if n <? 0
  then String "-" (zeros (width - 1 - String.length digits) +:+ digits)
  else zeros (width - String.length digits) +:+ digits.

(** [strings.Contains(s, sep)] for a separator of one byte *)
Fixpoint strings_Contains (s : string) (sep : ascii) : bool :=
  match s with
  | EmptyString => false
  | String c s' => Ascii.eqb c sep || strings_Contains s' sep
  end.

(** [strings.Split(s, sep)] for a separator of one byte: the pieces between
    the separators, one piece more than there are separators. *)
Fixpoint strings_Split (s : string) (sep : ascii) : list string :=
  match s with
  | EmptyString => [EmptyString]
  | String c s' =>
      if Ascii.eqb c sep then EmptyString :: strings_Split s' sep
      else match strings_Split s' sep with
           | piece :: pieces => String c piece :: pieces
           | [] => [String c EmptyString]
           end
  end.

(** [strings.Replace(s, old, new, -1)] for a non-empty [old]: every
    non-overlapping instance of [old], from the left. [skip] counts the bytes
    of a matched instance still to be passed over. Both calls of the program
    have a non-empty [old]. *)
Fixpoint Replace_from (old new : string) (skip : nat) (s : string) : string :=
  match s with
  | EmptyString => EmptyString
  | String c s' =>
      match skip with
      | S k => Replace_from old new k s'
      | O =>
          if String.prefix old s
          then new +:+ Replace_from old new (String.length old - 1) s'
          else String c (Replace_from old new O s')
      end
  end.

Definition strings_Replace (s old new : string) : string :=
  Replace_from old new O s.

(** [filepath.Ext]: the loop runs [i] from the last byte down, stops at a
    path separator (['/'], as on Unix), and returns the suffix from the
    first dot it meets. *)
Fixpoint Ext_loop (path : string) (i : nat) : string :=
  match i with
  | O => EmptyString
  | S j =>
      match String.get j path with
      | Some c =>
          if Ascii.eqb c "/" then EmptyString
          else if Ascii.eqb c "."
               then String.substring j (String.length path - j) path
               else Ext_loop path j
      | None => EmptyString
      end
  end.

Definition filepath_Ext (path : string) : string :=
  Ext_loop path (String.length path).

(** [os.FileInfo], with the methods the program calls *)
Record FileInfo : Type := mkFileInfo {
  Name : string;
  Size : Z;
  ModTime : Time
}.

(** What the program does not contain: the file system, the exif decoder
    (github.com/rwcarlsen/goexif) and [time.Parse]. Each call is a function
    that returns a value or an error. [exif_nil] is the nil [*exif.Exif],
    which [GetExifData] returns when the file cannot be opened; what the
    decoder answers on it is part of [exif_Get]. [time_Parse] takes the
    layout and the value. *)
Class Platform : Type := {
  FS : Type;
  File : Type;
  Exif : Type;
  Tag : Type;
  os_Stat : FS -> string -> result FileInfo;
  os_Open : FS -> string -> result File;
  os_Rename : FS -> string -> string -> FS * error;
  exif_nil : Exif;
  exif_Decode : File -> Exif * error;
  exif_Get : Exif -> string -> result Tag;
  tag_StringVal : Tag -> result string;
  time_Parse : string -> string -> result Time
}.

(** ** main: constants *)

Definition DefaultFileOutputPattern : string :=
  "{DateTime.Year}{DateTime.Month}{DateTime.Day}_{Make}_{File.IndexByCaptureDate}.{File.Extension}".

(** [exif.DateTime], [exif.DateTimeOriginal], [exif.DateTimeDigitized] *)
Definition exif_DateTime : string := "DateTime".
Definition exif_DateTimeOriginal : string := "DateTimeOriginal".
Definition exif_DateTimeDigitized : string := "DateTimeDigitized".

Definition timestampFields (name : string) : bool :=
  String.eqb name exif_DateTime
  || String.eqb name exif_DateTimeOriginal
  || String.eqb name exif_DateTimeDigitized.

Definition timestampFormat : string := "2006:01:02 15:04:05".

(** ** main: property formatters *)

Definition TimestampProp (timestamp : Time) (properties : list string) : string :=
  match properties with
  | property :: _ =>
      if String.eqb property "Year" then strconv_Itoa (Year timestamp)
      else if String.eqb property "Month" then Sprintf_0d 2 (Month timestamp)
      else if String.eqb property "Day" then Sprintf_0d 2 (Day timestamp)
      else if String.eqb property "Hour" then Sprintf_0d 2 (Hour timestamp)
      else if String.eqb property "Minute" then Sprintf_0d 2 (Minute timestamp)
      else if String.eqb property "Second" then Sprintf_0d 2 (Second timestamp)
      else if String.eqb property "Nanosecond" then strconv_Itoa (Nanosecond timestamp)
      else if String.eqb property "Unix" then strconv_Itoa (Unix timestamp)
      else if String.eqb property "Weekday" then Weekday timestamp
      else if String.eqb property "Offset" then Location timestamp
      else Format_RFC3339 timestamp
  | [] => Format_RFC3339 timestamp
  end.

Definition FileProp (fileMeta : FileInfo) (properties : list string) : string :=
  match properties with
  | property :: rest =>
      if String.eqb property "Name" then Name fileMeta
      else if String.eqb property "ModTime" then
        let subProperty := match rest with p :: _ => p | [] => EmptyString end in
        TimestampProp (ModTime fileMeta) [subProperty]
      else if String.eqb property "Size" then strconv_Itoa (Size fileMeta)
      else EmptyString
  | [] => EmptyString
  end.

(** ** main: the tag scanner *)

(** The variables of the loop of [ExtractFileOutputTags]: the tags emitted
    so far, the state (0 outside a tag, 1 inside) and the buffer [tag]. *)
Record Scanner : Type := mkScanner {
  tags : list string;
  state : Z;
  tag : string
}.

Definition OUTSIDE : Z := 0.
Definition INSIDE : Z := 1.

(** One iteration of the loop, on the character [r]. *)
Definition scan_step (sc : Scanner) (r : ascii) : Scanner :=
  if state sc =? 0 then
    if Ascii.eqb r "{"
    then mkScanner (tags sc) 1 EmptyString
    else sc
  else if state sc =? 1 then
    let sc' :=
      if Ascii.eqb r "}"
      then mkScanner (tags sc ++ [tag sc]) 0 (tag sc)
      else sc in
    mkScanner (tags sc') (state sc') (tag sc' +:+ String r EmptyString)
  else sc.

Definition scan (sc : Scanner) (filePattern : string) : Scanner :=
  fold_left scan_step (list_ascii_of_string filePattern) sc.

Definition ExtractFileOutputTags (filePattern : string) : list string :=
  tags (scan (mkScanner [] 0 EmptyString) filePattern).

(** ** main: tags *)

Definition ParseTagProperties (outputTag : string) : string * list string :=
  if strings_Contains outputTag "."
  then match strings_Split outputTag "." with
       | part :: parts => (part, parts)
       | [] => (outputTag, [])
       end
  else (outputTag, []).

Definition ReplaceTagInPattern (inputPattern tag value : string) : string :=
  strings_Replace inputPattern ("{" +:+ tag +:+ "}") value.

(** ** main: the resolver and the renderer *)

Section Engine.

Context {P : Platform}.

(** [GetExifData]: open the file, decode it. *)
Definition GetExifData (fs : FS) (filePath : string) : Exif * error :=
  match os_Open fs filePath with
  | Fail e => (exif_nil, Some e)
  | Ok fileContents => exif_Decode fileContents
  end.

(** [GetFileTagValue]: the file is stat'ed before the property is looked at.
    The collector is read through the pointer, with its methods. *)
Definition GetFileTagValue (fs : FS) (fileCaptureTime : Time)
    (filePath tag : string) (properties : list string) : Coll (string * error) :=
  match os_Stat fs filePath with
  | Fail e => ret (EmptyString, Some e)
  | Ok fileMeta =>
      match properties with
      | property :: _ =>
          if String.eqb property "Index" then
            (n <- Len ;; ret (Sprintf_0d 6 n, nil))%coll
          else if String.eqb property "IndexByCaptureYear" then
            (fileIndex <- GetIndexByYear fileCaptureTime ;;
             ret (Sprintf_0d 6 fileIndex, nil))%coll
          else if String.eqb property "IndexByCaptureMonth" then
            (fileIndex <- GetIndexByMonth fileCaptureTime ;;
             ret (Sprintf_0d 6 fileIndex, nil))%coll
          else if String.eqb property "IndexByCaptureDate" then
            (fileIndex <- GetIndexByDay fileCaptureTime ;;
             ret (Sprintf_0d 6 fileIndex, nil))%coll
          else if String.eqb property "Extension" then
            ret (strings_Replace (filepath_Ext (Name fileMeta)) "." EmptyString, nil)
          else
            ret (FileProp fileMeta properties, nil)
      | [] => ret (EmptyString, nil)
      end
  end.

Definition GetExifTagValue (exifData : Exif) (tag : string)
    (properties : list string) : string * error :=
  match exif_Get exifData tag with
  | Fail e => (EmptyString, Some e)
  | Ok exifTag =>
      match tag_StringVal exifTag with
      | Fail e => (EmptyString, Some e)
      | Ok stringTagValue =>
          if timestampFields tag then
            match time_Parse timestampFormat stringTagValue with
            | Fail e => (EmptyString, Some e)
            | Ok timestamp =>
                match properties with
                | property :: _ => (TimestampProp timestamp [property], nil)
                | [] => (EmptyString, nil)
                end
            end
          else (stringTagValue, nil)
      end
  end.

(** One alternative of a tag: the body of the [switch] of [GetTagValue]. *)
Definition resolve (fs : FS) (fileCaptureTime : Time) (exifData : Exif)
    (filePath outputTag : string) : Coll (string * error) :=
  let (tag, properties) := ParseTagProperties outputTag in
  if String.eqb tag "File"
  then GetFileTagValue fs fileCaptureTime filePath tag properties
  else ret (GetExifTagValue exifData tag properties).

(** The loop of [GetTagValue] over the alternatives, on the variable
    [tagValue]: an alternative that fails is passed over ([continue]). *)
Fixpoint GetTagValue_loop (fs : FS) (fileCaptureTime : Time) (exifData : Exif)
    (filePath : string) (outputTags : list string) (tagValue : string)
    : Coll string :=
  match outputTags with
  | [] => ret tagValue
  | outputTag :: rest =>
      (r <- resolve fs fileCaptureTime exifData filePath outputTag ;;
       match r with
       | (_, Some _) =>
           GetTagValue_loop fs fileCaptureTime exifData filePath rest tagValue
       | (value, None) =>
           GetTagValue_loop fs fileCaptureTime exifData filePath rest value
       end)%coll
  end.

Definition GetTagValue (fs : FS) (fileCaptureTime : Time) (exifData : Exif)
    (filePath fileTag : string) : Coll (string * error) :=
  (tagValue <- GetTagValue_loop fs fileCaptureTime exifData filePath
                 (strings_Split fileTag "|") EmptyString ;;
   ret (tagValue, nil))%coll.

(** [time.Parse] returns the zero time next to an error. *)
Definition parse_timestamp (value : string) : Time * error :=
  match time_Parse timestampFormat value with
  | Ok timestamp => (timestamp, nil)
  | Fail e => (zeroTime, Some e)
  end.

(** The first of DateTime, DateTimeDigitized, DateTimeOriginal that the
    decoder has. *)
Definition capture_tag (exifData : Exif) : result Tag :=
  match exif_Get exifData exif_DateTime with
  | Ok exifTag => Ok exifTag
  | Fail _ =>
      match exif_Get exifData exif_DateTimeDigitized with
      | Ok exifTag => Ok exifTag
      | Fail _ => exif_Get exifData exif_DateTimeOriginal
      end
  end.

Definition GetFileCaptureTime (fs : FS) (filePath : string) : Time * Exif * error :=
  match GetExifData fs filePath with
  | (exifData, Some e) => (zeroTime, exifData, Some e)
  | (exifData, None) =>
      match capture_tag exifData with
      | Fail e => (zeroTime, exifData, Some e)
      | Ok exifTag =>
          match tag_StringVal exifTag with
          | Fail e => (zeroTime, exifData, Some e)
          | Ok stringTagValue =>
              let (timestamp, err) := parse_timestamp stringTagValue in
              (timestamp, exifData, err)
          end
      end
  end.

Definition IncrementCaptureIndex (fs : FS) (filePath : string)
    : Coll (Time * Exif * error) :=
  match GetFileCaptureTime fs filePath with
  | (timestamp, exifData, Some e) => ret (timestamp, exifData, Some e)
  | (timestamp, exifData, None) =>
      (Add timestamp ;; ret (timestamp, exifData, nil))%coll
  end.

(** The inner loop of [ApplyPattern]: every tag is resolved and substituted
    in [outputFilename]; an error of [GetTagValue] leaves the loop. *)
Fixpoint render (fs : FS) (fileCaptureTime : Time) (exifData : Exif)
    (file : string) (fileTags : list string) (outputFilename : string)
    : Coll (string * error) :=
  match fileTags with
  | [] => ret (outputFilename, nil)
  | tag :: rest =>
      (r <- GetTagValue fs fileCaptureTime exifData file tag ;;
       match r with
       | (_, Some e) => ret (outputFilename, Some e)
       | (value, None) =>
           render fs fileCaptureTime exifData file rest
             (ReplaceTagInPattern outputFilename tag value)
       end)%coll
  end.

(** What a run of [ApplyPattern] acts on: the collector, the file system
    and the lines printed. *)
Record Run : Type := mkRun {
  collector : DateIndexCollector;
  files_state : FS;
  printed : list string
}.

(** The body of the outer loop for one file. The error of
    [IncrementCaptureIndex] is assigned and not looked at. *)
Definition ApplyPattern_file (dryRun : bool) (fileTags : list string)
    (outputFilePattern : string) (file : string) (st : Run) : Run * error :=
  let '(fileCaptureTime, exifData, _, c1) :=
    IncrementCaptureIndex (files_state st) file (collector st) in
  let '(outputFilename, err, c2) :=
    render (files_state st) fileCaptureTime exifData file fileTags
      outputFilePattern c1 in
  match err with
  | Some e => (mkRun c2 (files_state st) (printed st), Some e)
  | None =>
      if dryRun then
        (mkRun c2 (files_state st)
           (printed st ++ [file +:+ " => " +:+ outputFilename +:+ newline]), nil)
      else
        let (fs', err) := os_Rename (files_state st) file outputFilename in
        (mkRun c2 fs' (printed st), err)
  end.

Fixpoint ApplyPattern_loop (dryRun : bool) (fileTags : list string)
    (outputFilePattern : string) (files : list string) (st : Run) : Run * error :=
  match files with
  | [] => (st, nil)
  | file :: rest =>
      match ApplyPattern_file dryRun fileTags outputFilePattern file st with
      | (st', Some e) => (st', Some e)
      | (st', None) => ApplyPattern_loop dryRun fileTags outputFilePattern rest st'
      end
  end.

(** [ApplyPattern], with the value of the dryrun flag: the effects on the
    file system and on the output, and the error returned. *)
Definition ApplyPattern (dryRun : bool) (fs : FS) (files fileTags : list string)
    (outputFilePattern : string) : Run * error :=
  ApplyPattern_loop dryRun fileTags outputFilePattern files
    (mkRun NewDateIndexCollector fs []).

End Engine.

(** ** A platform to run the program on

    A file system in memory, for the scenarios below: a path maps to a file
    with its size, its modification time and, when the file has exif data,
    the string values of its fields. [time_Parse] reads the plain
    [YYYY:MM:DD HH:MM:SS] form and gives a UTC time, as [time.Parse] does
    for a layout without a zone. *)
Module Ref.

Record RefFile : Type := mkFile {
  file_size : Z;
  file_modTime : Time;
  file_exif : option (gmap string (result string))
}.

(** [filepath.Base] of a path without a trailing separator *)
Fixpoint base_name (path : string) : string :=
  match path with
  | EmptyString => EmptyString
  | String c rest =>
      if strings_Contains rest "/" then base_name rest
      else if Ascii.eqb c "/" then rest
      else path
  end.

Definition stat (fs : gmap string RefFile) (path : string) : result FileInfo :=
  match fs !! path with
  | Some f => Ok (mkFileInfo (base_name path) (file_size f) (file_modTime f))
  | None => Fail "no such file or directory"
  end.

Definition open (fs : gmap string RefFile) (path : string) : result RefFile :=
  match fs !! path with
  | Some f => Ok f
  | None => Fail "no such file or directory"
  end.

Definition rename (fs : gmap string RefFile) (oldpath newpath : string)
    : gmap string RefFile * error :=
  match fs !! oldpath with
  | Some f => (<[newpath := f]> (delete oldpath fs), nil)
  | None => (fs, Some "no such file or directory")
  end.

Definition decode (f : RefFile) : option (gmap string (result string)) * error :=
  match file_exif f with
  | Some fields => (Some fields, nil)
  | None => (None, Some "exif: failed to find exif intro marker")
  end.

(** The fields of the decoded data; on the nil pointer every field is
    reported as missing. *)
Definition get (x : option (gmap string (result string))) (name : string)
    : result (result string) :=
  match x with
  | Some fields =>
      match fields !! name with
      | Some t => Ok t
      | None => Fail "exif: tag not present"
      end
  | None => Fail "exif: no data"
  end.

Definition digit (c : ascii) : option Z :=
  let n := Z.of_nat (nat_of_ascii c) in
  if (48 <=? n) && (n <=? 57) then Some (n - 48) else None.

Fixpoint number (cs : list ascii) (acc : Z) : option Z :=
  match cs with
  | [] => Some acc
  | c :: rest =>
      match digit c with
      | Some d => number rest (10 * acc + d)
      | None => None
      end
  end.

Definition isLeap (year : Z) : bool :=
  (year mod 4 =? 0) && (negb (year mod 100 =? 0) || (year mod 400 =? 0)).

Definition daysIn (month year : Z) : Z :=
  if month =? 2 then (if isLeap year then 29 else 28)
  else if (month =? 4) || (month =? 6) || (month =? 9) || (month =? 11)
       then 30 else 31.

(** Days from 1970-01-01 to the given date of the proleptic Gregorian
    calendar. *)
Definition days_from_civil (y m d : Z) : Z :=
  let y' := if m <=? 2 then y - 1 else y in
  let era := y' / 400 in
  let yoe := y' - era * 400 in
  let doy := (153 * (if 2 <? m then m - 3 else m + 9) + 2) / 5 + d - 1 in
  let doe := yoe * 365 + yoe / 4 - yoe / 100 + doy in
  era * 146097 + doe - 719468.

Definition weekday_name (days : Z) : string :=
  let w := (days + 4) mod 7 in
  if w =? 0 then "Sunday" else if w =? 1 then "Monday"
  else if w =? 2 then "Tuesday" else if w =? 3 then "Wednesday"
  else if w =? 4 then "Thursday" else if w =? 5 then "Friday"
  else "Saturday".

Definition utc (y mo d h mi s : Z) : Time :=
  let days := days_from_civil y mo d in
  {| Year := y; Month := mo; Day := d; Hour := h; Minute := mi; Second := s;
     Nanosecond := 0;
     Unix := days * 86400 + h * 3600 + mi * 60 + s;
     Weekday := weekday_name days;
     Location := "UTC";
     Format_RFC3339 :=
       Sprintf_0d 4 y +:+ "-" +:+ Sprintf_0d 2 mo +:+ "-" +:+ Sprintf_0d 2 d
       +:+ "T" +:+ Sprintf_0d 2 h +:+ ":" +:+ Sprintf_0d 2 mi +:+ ":"
       +:+ Sprintf_0d 2 s +:+ "Z" |}.

Definition is_char (c expected : ascii) : bool := Ascii.eqb c expected.

Definition parse (layout value : string) : result Time :=
  if negb (String.eqb layout timestampFormat) then Fail "unsupported layout"
  else
    match list_ascii_of_string value with
    | [y1; y2; y3; y4; c1; m1; m2; c2; d1; d2; c3; h1; h2; c4; i1; i2; c5; s1; s2] =>
        if is_char c1 ":" && is_char c2 ":" && is_char c3 " "
           && is_char c4 ":" && is_char c5 ":"
        then
          match number [y1; y2; y3; y4] 0, number [m1; m2] 0, number [d1; d2] 0,
                number [h1; h2] 0, number [i1; i2] 0, number [s1; s2] 0 with
          | Some y, Some mo, Some d, Some h, Some mi, Some s =>
              if (1 <=? mo) && (mo <=? 12) && (1 <=? d) && (d <=? daysIn mo y)
                 && (h <? 24) && (mi <? 60) && (s <? 60)
              then Ok (utc y mo d h mi s)
              else Fail "parsing time: out of range"
          | _, _, _, _, _, _ => Fail "parsing time: cannot parse"
          end
        else Fail "parsing time: cannot parse"
    | _ => Fail "parsing time: cannot parse"
    end.

#[export] Instance platform : Platform := {|
  FS := gmap string RefFile;
  File := RefFile;
  Exif := option (gmap string (result string));
  Tag := result string;
  os_Stat := stat;
  os_Open := open;
  os_Rename := rename;
  exif_nil := None;
  exif_Decode := decode;
  exif_Get := get;
  tag_StringVal := fun t => t;
  time_Parse := parse
|}.

End Ref.

(** ** Vocabulary of the statements *)

(** A template written out: pieces of literal text, each followed by a tag
    in braces, and a last piece of text. *)
Fixpoint template (pieces : list (string * string)) (rest : string) : string :=
  match pieces with
  | [] => rest
  | (text, name) :: pieces' =>
      text +:+ "{" +:+ name +:+ "}" +:+ template pieces' rest
  end.

(** [s] does not contain the byte [c] *)
Definition free_of (c : ascii) (s : string) : Prop := strings_Contains s c = false.

(** The value of the last result whose error is nil, the empty string when
    there is none. *)
Definition successes (results : list (string * error)) : list string :=
  omap (fun r => match snd r with None => Some (fst r) | Some _ => None end) results.

Definition last_success (results : list (string * error)) : string :=
  default EmptyString (last (successes results)).

(** The reading of the scanner under which the closing brace is part of
    the tag that is captured: on the closing brace, the tag appended to the
    result is the buffer with the brace. *)
Definition captures_closing_brace : Prop :=
  forall sc : Scanner, state sc = INSIDE ->
    last (tags (scan_step sc "}")) = Some (tag sc +:+ "}").

(** What holds of the scanner all along: no tag emitted has a closing brace,
    and inside a tag the buffer has none either. *)
Definition scanner_ok (sc : Scanner) : Prop :=
  Forall (free_of "}") (tags sc) /\ (state sc = INSIDE -> free_of "}" (tag sc)).

(** The property names that [TimestampProp] knows. *)
Definition recognized (property : string) : bool :=
  existsb (String.eqb property)
    ["Year"; "Month"; "Day"; "Hour"; "Minute"; "Second"; "Nanosecond"; "Unix";
     "Weekday"; "Offset"].

(** The output name of a file: the pattern with every tag replaced, in the
    order of [fileTags], by the value GetTagValue gives it. *)
Definition rendered `{P : Platform} (fs : FS) (fileCaptureTime : Time)
    (exifData : Exif) (file : string) (c : DateIndexCollector)
    (fileTags : list string) (outputFilePattern : string) : string :=
  foldl (fun outputFilename tag =>
           ReplaceTagInPattern outputFilename tag
             (fst (fst (GetTagValue fs fileCaptureTime exifData file tag c))))
        outputFilePattern fileTags.

(** The line of a dry run. *)
Definition dry_line (file outputFilename : string) : string :=
  file +:+ " => " +:+ outputFilename +:+ newline.

(** [strings.Join(parts, sep)] for a separator of one byte *)
Fixpoint strings_Join (parts : list string) (sep : ascii) : string :=
  match parts with
  | [] => EmptyString
  | part :: rest =>
      match rest with
      | [] => part
      | _ :: _ => part +:+ String sep (strings_Join rest sep)
      end
  end.

(** A template in which the tags of [resolved] have their value in place of
    the braces and the name, and the other tags are as they were. *)
Fixpoint filled (value : string -> string) (resolved : list string)
    (pieces : list (string * string)) (rest : string) : string :=
  match pieces with
  | [] => rest
  | (text, name) :: pieces' =>
      text
      +:+ (if bool_decide (name ∈ resolved) then value name
           else "{" +:+ name +:+ "}")
      +:+ filled value resolved pieces' rest
  end.

(** The pieces of a template that the substitution handles one by one: no
    opening brace in the text, no brace in a name. *)
Definition plain_pieces (pieces : list (string * string)) : Prop :=
  Forall (fun p => free_of "{" (fst p) /\ free_of "{" (snd p) /\ free_of "}" (snd p))
    pieces.

(** The capture times of the files that have one, in the order of the
    files. *)
Definition capture_times `{P : Platform} (fs : FS) (files : list string) : list Time :=
  omap (fun file =>
          match GetFileCaptureTime fs file with
          | (timestamp, _, None) => Some timestamp
          | (_, _, Some _) => None
          end) files.

(** The property names that [GetFileTagValue] and [FileProp] know. *)
Definition known_file_property (property : string) : bool :=
  existsb (String.eqb property)
    ["Index"; "IndexByCaptureYear"; "IndexByCaptureMonth"; "IndexByCaptureDate";
     "Extension"; "Name"; "ModTime"; "Size"].

(** A name that can stand between the separators of a tag. *)
Definition plain_name (s : string) : Prop := free_of "." s /\ free_of "|" s.

(** A template with every tag replaced by its value. *)
Fixpoint substituted (value : string -> string)
    (pieces : list (string * string)) (rest : string) : string :=
  match pieces with
  | [] => rest
  | (text, name) :: pieces' => text +:+ value name +:+ substituted value pieces' rest
  end.

(** ** Scenarios *)

(** The timestamps of [TestDateIndexCollector], in the order of the test. *)
Definition test_timestamps : list Time :=
  [ Ref.utc 2015 1 1 0 0 0; Ref.utc 2016 1 1 0 0 0; Ref.utc 2016 1 2 0 0 0;
    Ref.utc 2016 1 2 0 0 0; Ref.utc 2016 1 3 0 0 0; Ref.utc 2016 1 3 0 0 0;
    Ref.utc 2016 1 3 0 0 0; Ref.utc 2016 2 1 0 0 0 ].

(** Files of a directory: two pictures taken on 2016-03-04, one file whose
    exif data has no date field, one whose camera clock was never set and
    reads the first day of year 1. *)
Definition picture (fields : gmap string (result string)) : Ref.RefFile :=
  Ref.mkFile 2048 (Ref.utc 2016 3 5 12 0 0) (Some fields).

Definition sample_exif : gmap string (result string) :=
  {[ "DateTime" := Ok "2016:03:04 10:00:00"; "Make" := Ok "Canon" ]}.

Definition sample_fs : gmap string Ref.RefFile :=
  {[ "a.jpg" := picture {[ "DateTime" := Ok "2016:03:04 09:00:00"; "Make" := Ok "Canon" ]};
     "b.jpg" := picture sample_exif;
     "c.jpg" := picture {[ "Make" := Ok "Canon" ]};
     "d.jpg" := picture {[ "DateTime" := Ok "0001:01:01 00:00:00" ]} ]}.

Definition scenario_pattern : string :=
  "{DateTime.Year}{DateTime.Month}_{File.IndexByCaptureDate}.{File.Extension}".

Definition index_pattern : string := "{File.IndexByCaptureDate}.{File.Extension}".

(** Two more files: one whose DateTime is the all-zero value of a camera
    without a clock, next to a DateTimeDigitized that parses, and one that
    has DateTimeOriginal only. *)
Definition clockless_exif : gmap string (result string) :=
  {[ "DateTime" := Ok "0000:00:00 00:00:00";
     "DateTimeDigitized" := Ok "2016:03:04 10:00:00" ]}.

Definition original_exif : gmap string (result string) :=
  {[ "DateTimeOriginal" := Ok "2016:03:04 11:00:00" ]}.

Definition clock_fs : gmap string Ref.RefFile :=
  {[ "e.jpg" := picture clockless_exif; "f.jpg" := picture original_exif ]}.

(** * Properties *)

(** ** Go integers *)

Lemma wrap_small z : GoInt.min_int <= z <= GoInt.max_int -> GoInt.wrap z = z.
Proof.
  unfold GoInt.wrap, GoInt.min_int, GoInt.max_int. intros Hz.
  rewrite Z.mod_small; lia.
Qed.

Lemma incr_small z : 0 <= z < GoInt.max_int -> GoInt.incr z = z + 1.
Proof.
  unfold GoInt.incr, GoInt.add. intros Hz. apply wrap_small.
  unfold GoInt.min_int, GoInt.max_int in *. lia.
Qed.

(** ** The collector *)

Section CollectorFacts.

Implicit Types (c : DateIndexCollector) (t : Time) (ts : list Time).

Lemma has_key_true {V} (k : Z) (m : gmap Z V) :
  has_key k m = true -> exists v, m !! k = Some v.
Proof. unfold has_key. intros H%bool_decide_eq_true. destruct H as [v Hv]. eauto. Qed.

Lemma has_key_false {V} (k : Z) (m : gmap Z V) :
  has_key k m = false -> m !! k = None.
Proof.
  unfold has_key. intros H%bool_decide_eq_false.
  destruct (m !! k) eqn:E; [exfalso; apply H; eauto | done].
Qed.

Lemma Add_unfold t c :
  snd (Add t c) =
  let byMonth :=
    if has_key (Year t) (ByMonth c) then ByMonth c
    else <[Year t := ∅]> (ByMonth c) in
  let byDay :=
    if has_key (Year t) (ByDay c) then ByDay c
    else <[Year t := ∅]> (ByDay c) in
  let byDay' :=
    if has_key (Month t) (default ∅ (byDay !! Year t)) then byDay
    else alter <[Month t := ∅]> (Year t) byDay in
  mkCollector
    (GoInt.incr (Count c))
    (map_incr (Year t) (ByYear c))
    (alter (map_incr (Month t)) (Year t) byMonth)
    (alter (alter (map_incr (Day t)) (Month t)) (Year t) byDay').
Proof.
  unfold Add, bind, modify, gets, ret. simpl.
  destruct (has_key (Year t) (ByMonth c)); simpl;
    destruct (has_key (Year t) (ByDay c)); simpl;
    match goal with |- context [if ?b then _ else _] => destruct b end;
    reflexivity.
Qed.

Lemma lookup_ensure {V} (e : V) (k j : Z) (m : gmap Z V) :
  (if has_key k m then m else <[k := e]> m) !! j =
  if decide (j = k) then Some (default e (m !! k)) else m !! j.
Proof.
  destruct (has_key k m) eqn:Hk.
  - apply has_key_true in Hk as [v Hv].
    destruct (decide (j = k)) as [->|]; [by rewrite Hv | done].
  - apply has_key_false in Hk.
    destruct (decide (j = k)) as [->|].
    + by rewrite lookup_insert_eq, Hk.
    + by rewrite lookup_insert_ne.
Qed.

Lemma lookup_map_incr (k j : Z) (m : gmap Z Z) :
  default 0 (map_incr k m !! j) =
  if decide (j = k) then GoInt.incr (default 0 (m !! j)) else default 0 (m !! j).
Proof.
  unfold map_incr. destruct (decide (j = k)) as [->|Hne].
  - by rewrite lookup_insert_eq.
  - by rewrite lookup_insert_ne.
Qed.

Lemma Count_Add t c : Count (snd (Add t c)) = GoInt.incr (Count c).
Proof. by rewrite Add_unfold. Qed.

Lemma year_count_Add t c y :
  year_count (snd (Add t c)) y =
  if decide (y = Year t) then GoInt.incr (year_count c y) else year_count c y.
Proof. rewrite Add_unfold. unfold year_count. simpl. apply lookup_map_incr. Qed.

Lemma month_count_Add t c y m :
  month_count (snd (Add t c)) y m =
  if decide (y = Year t /\ m = Month t)
  then GoInt.incr (month_count c y m) else month_count c y m.
Proof.
  rewrite Add_unfold. unfold month_count. simpl.
  destruct (decide (y = Year t)) as [->|Hy].
  - rewrite lookup_alter_eq, (lookup_ensure ∅), decide_True by done. simpl.
    rewrite lookup_map_incr.
    destruct (decide (m = Month t)) as [->|Hm].
    + by rewrite decide_True.
    + rewrite decide_False; [done | tauto].
  - rewrite lookup_alter_ne, (lookup_ensure ∅), decide_False by done.
    rewrite decide_False; [done | tauto].
Qed.

Lemma day_count_Add t c y m d :
  day_count (snd (Add t c)) y m d =
  if decide (y = Year t /\ m = Month t /\ d = Day t)
  then GoInt.incr (day_count c y m d) else day_count c y m d.
Proof.
  rewrite Add_unfold. unfold day_count. simpl.
  set (byDay := if has_key (Year t) (ByDay c) then ByDay c
                else <[Year t := ∅]> (ByDay c)).
  assert (forall j, byDay !! j =
            if decide (j = Year t) then Some (default ∅ (ByDay c !! Year t))
            else ByDay c !! j) as HbyDay
    by (intros j; apply (lookup_ensure ∅)).
  rewrite (HbyDay (Year t)), decide_True by done. simpl.
  set (months := default ∅ (ByDay c !! Year t)).
  assert (forall j,
    (if has_key (Month t) months then byDay
     else alter <[Month t := ∅]> (Year t) byDay) !! j =
    if decide (j = Year t)
    then Some (if has_key (Month t) months then months else <[Month t := ∅]> months)
    else ByDay c !! j) as HbyDay'.
  { intros j. destruct (has_key (Month t) months).
    - rewrite HbyDay. by destruct (decide (j = Year t)).
    - destruct (decide (j = Year t)) as [->|Hj].
      + by rewrite lookup_alter_eq, HbyDay, decide_True.
      + by rewrite lookup_alter_ne, HbyDay, decide_False. }
  destruct (decide (y = Year t)) as [->|Hy].
  - rewrite lookup_alter_eq, HbyDay', decide_True by done. simpl.
    destruct (decide (m = Month t)) as [->|Hm].
    + rewrite lookup_alter_eq, (lookup_ensure ∅), decide_True by done. simpl.
      rewrite lookup_map_incr.
      destruct (decide (d = Day t)) as [->|Hd].
      * by rewrite decide_True.
      * rewrite decide_False; [done | tauto].
    + rewrite lookup_alter_ne, (lookup_ensure ∅), decide_False by done.
      rewrite decide_False; [done | tauto].
  - rewrite lookup_alter_ne, HbyDay', decide_False by done.
    rewrite decide_False; [done | tauto].
Qed.

Lemma AddAll_snoc ts t c : AddAll (ts ++ [t]) c = snd (Add t (AddAll ts c)).
Proof. unfold AddAll. by rewrite foldl_app. Qed.

(** Counting the timestamps that satisfy a decidable property. *)
Lemma count_snoc (P : Time -> Prop) `{!forall t, Decision (P t)} ts t :
  Z.of_nat (length (filter P (ts ++ [t]))) =
  Z.of_nat (length (filter P ts)) + (if decide (P t) then 1 else 0).
Proof.
  rewrite filter_app, length_app, filter_cons, filter_nil.
  destruct (decide (P t)); simpl; lia.
Qed.

Lemma count_le_length (P : Time -> Prop) `{!forall t, Decision (P t)} ts :
  Z.of_nat (length (filter P ts)) <= Z.of_nat (length ts).
Proof. pose proof (length_filter P ts). lia. Qed.

Lemma count_mono (P Q : Time -> Prop)
    `{!forall t, Decision (P t)} `{!forall t, Decision (Q t)} ts :
  (forall t, P t -> Q t) ->
  Z.of_nat (length (filter P ts)) <= Z.of_nat (length (filter Q ts)).
Proof.
  intros HPQ. induction ts as [|t ts IH]; [done|].
  rewrite !filter_cons.
  destruct (decide (P t)) as [HP|HP].
  - rewrite decide_True by auto. simpl. lia.
  - destruct (decide (Q t)); simpl; lia.
Qed.

(** After the adds of [ts] on a new collector every counter is the number
    of timestamps of its bucket, as long as that number is an [int]. *)
Lemma AddAll_counts ts :
  Z.of_nat (length ts) <= GoInt.max_int ->
  let c := AddAll ts NewDateIndexCollector in
  Count c = Z.of_nat (length ts) /\
  (forall y, year_count c y = in_year y ts) /\
  (forall y m, month_count c y m = in_month y m ts) /\
  (forall y m d, day_count c y m d = in_day y m d ts).
Proof.
  induction ts as [|t ts IH] using rev_ind; intros Hlen.
  - cbn. repeat split; done.
  - rewrite length_app in Hlen. simpl in Hlen.
    destruct IH as (HC & HY & HM & HD); [lia|].
    cbv zeta. rewrite AddAll_snoc.
    set (c := AddAll ts NewDateIndexCollector) in *.
    repeat split.
    + rewrite Count_Add, HC, length_app. simpl.
      rewrite incr_small; lia.
    + intros y. rewrite year_count_Add, HY. unfold in_year.
      rewrite count_snoc.
      pose proof (count_le_length (fun t => Year t = y) ts).
      destruct (decide (y = Year t)) as [->|Hy].
      * rewrite decide_True by done. rewrite incr_small; lia.
      * rewrite decide_False by congruence. lia.
    + intros y m. rewrite month_count_Add, HM. unfold in_month.
      rewrite count_snoc.
      pose proof (count_le_length (fun t => Year t = y /\ Month t = m) ts).
      destruct (decide (y = Year t /\ m = Month t)) as [[-> ->]|Hy].
      * rewrite decide_True by done. rewrite incr_small; lia.
      * rewrite decide_False by (intros [? ?]; apply Hy; split; congruence). lia.
    + intros y m d. rewrite day_count_Add, HD. unfold in_day.
      rewrite count_snoc.
      pose proof (count_le_length
        (fun t => Year t = y /\ Month t = m /\ Day t = d) ts).
      destruct (decide (y = Year t /\ m = Month t /\ d = Day t)) as [(-> & -> & ->)|Hy].
      * rewrite decide_True by done. rewrite incr_small; lia.
      * rewrite decide_False
          by (intros (? & ? & ?); apply Hy; repeat split; congruence).
        lia.
Qed.

Lemma never_added_year t ts :
  Forall (fun t' => Year t' <> Year t) ts ->
  year_count (AddAll ts NewDateIndexCollector) (Year t) = 0.
Proof.
  induction ts as [|t' ts IH] using rev_ind; intros HF; [done|].
  apply Forall_app in HF as [HF Ht']. apply Forall_inv in Ht'.
  simpl in Ht'.
  rewrite AddAll_snoc, year_count_Add, decide_False by congruence. auto.
Qed.

Lemma never_added_month t ts :
  Forall (fun t' => ~ (Year t' = Year t /\ Month t' = Month t)) ts ->
  month_count (AddAll ts NewDateIndexCollector) (Year t) (Month t) = 0.
Proof.
  induction ts as [|t' ts IH] using rev_ind; intros HF; [done|].
  apply Forall_app in HF as [HF Ht']. apply Forall_inv in Ht'.
  simpl in Ht'.
  rewrite AddAll_snoc, month_count_Add, decide_False; [auto|].
  intros [? ?]. apply Ht'. split; congruence.
Qed.

Lemma never_added_day t ts :
  Forall (fun t' => ~ (Year t' = Year t /\ Month t' = Month t /\ Day t' = Day t)) ts ->
  day_count (AddAll ts NewDateIndexCollector) (Year t) (Month t) (Day t) = 0.
Proof.
  induction ts as [|t' ts IH] using rev_ind; intros HF; [done|].
  apply Forall_app in HF as [HF Ht']. apply Forall_inv in Ht'.
  simpl in Ht'.
  rewrite AddAll_snoc, day_count_Add, decide_False; [auto|].
  intros (? & ? & ?). apply Ht'. repeat split; congruence.
Qed.

Lemma GetIndexByMonth_read t c :
  GetIndexByMonth t c = (month_count c (Year t) (Month t), c).
Proof.
  unfold GetIndexByMonth, gets, month_count.
  destruct (ByMonth c !! Year t) as [months|]; simpl; [|done].
  by destruct (months !! Month t).
Qed.

Lemma GetIndexByDay_read t c :
  GetIndexByDay t c = (day_count c (Year t) (Month t) (Day t), c).
Proof.
  unfold GetIndexByDay, gets, day_count.
  destruct (ByDay c !! Year t) as [months|]; simpl; [|done].
  destruct (months !! Month t) as [days|]; simpl; [|done].
  by destruct (days !! Day t).
Qed.

End CollectorFacts.

(** The assertions of [TestDateIndexCollector]. *)
Example TestDateIndexCollector :
  let collector := AddAll test_timestamps NewDateIndexCollector in
  fst (Len collector) = 8 /\
  fst (GetIndexByYear (Ref.utc 2016 1 1 0 0 0) collector) = 7 /\
  fst (GetIndexByMonth (Ref.utc 2016 1 1 0 0 0) collector) = 6 /\
  fst (GetIndexByDay (Ref.utc 2016 1 1 0 0 0) collector) = 1 /\
  fst (GetIndexByDay (Ref.utc 2016 1 2 0 0 0) collector) = 2 /\
  fst (GetIndexByDay (Ref.utc 2016 1 3 0 0 0) collector) = 3.
Proof. vm_compute. repeat split. Qed.

(** C4: after the adds of N timestamps on a newly created collector, Len()
    is N and the counter of every year is the number of adds of that year;
    every add raises the counter of its own year by exactly one and leaves
    the counters of the other years as they were; and in every state on the
    way the counter of a month is at most the counter of its year, the
    counter of a day at most the counter of its month. N is an [int]. *)
Theorem collector_invariant (ts : list Time) :
  Z.of_nat (length ts) <= GoInt.max_int ->
  let c := AddAll ts NewDateIndexCollector in
  fst (Len c) = Z.of_nat (length ts) /\
  (forall y, year_count c y = in_year y ts) /\
  (forall pre t post y, ts = pre ++ t :: post ->
     year_count (AddAll (pre ++ [t]) NewDateIndexCollector) y =
     year_count (AddAll pre NewDateIndexCollector) y
     + (if decide (Year t = y) then 1 else 0)) /\
  (forall pre post y m d, ts = pre ++ post ->
     let c' := AddAll pre NewDateIndexCollector in
     month_count c' y m <= year_count c' y /\
     day_count c' y m d <= month_count c' y m).
Proof.
  intros Hlen c.
  destruct (AddAll_counts ts Hlen) as (HC & HY & _ & _).
  split; [exact HC|]. split; [exact HY|]. split.
  - intros pre t post y ->.
    rewrite length_app in Hlen. simpl in Hlen.
    destruct (AddAll_counts (pre ++ [t])) as (_ & HY1 & _).
    { rewrite length_app. simpl. lia. }
    destruct (AddAll_counts pre) as (_ & HY0 & _); [lia|].
    rewrite HY1, HY0. unfold in_year. apply count_snoc.
  - intros pre post y m d -> c'.
    rewrite length_app in Hlen.
    destruct (AddAll_counts pre) as (_ & HY0 & HM0 & HD0); [lia|].
    unfold c'. rewrite HY0, HM0, HD0. unfold in_year, in_month, in_day.
    split; apply count_mono; tauto.
Qed.

Lemma collector_invariant_witness :
  Z.of_nat (length test_timestamps) <= GoInt.max_int /\
  fst (Len (AddAll test_timestamps NewDateIndexCollector)) = 8 /\
  year_count (AddAll test_timestamps NewDateIndexCollector) 2016 = 7.
Proof.
  assert (Z.of_nat (length test_timestamps) <= GoInt.max_int) as H
    by (vm_compute; discriminate).
  split; [exact H|].
  destruct (collector_invariant test_timestamps H) as (HL & HY & _).
  split; [exact HL | exact (HY 2016)].
Defined.

(** C6: GetIndexByYear, GetIndexByMonth and GetIndexByDay return the counter
    that the bucket of the timestamp has at the time of the call, which is 0
    when no timestamp of that year (month, day) was added, and the collector
    after the call is the collector before it, field for field. *)
Theorem GetIndex_read_only (t : Time) (c : DateIndexCollector) (ts : list Time) :
  (GetIndexByYear t c = (year_count c (Year t), c) /\
   GetIndexByMonth t c = (month_count c (Year t) (Month t), c) /\
   GetIndexByDay t c = (day_count c (Year t) (Month t) (Day t), c)) /\
  (Forall (fun t' => Year t' <> Year t) ts ->
   fst (GetIndexByYear t (AddAll ts NewDateIndexCollector)) = 0) /\
  (Forall (fun t' => ~ (Year t' = Year t /\ Month t' = Month t)) ts ->
   fst (GetIndexByMonth t (AddAll ts NewDateIndexCollector)) = 0) /\
  (Forall (fun t' => ~ (Year t' = Year t /\ Month t' = Month t /\ Day t' = Day t)) ts ->
   fst (GetIndexByDay t (AddAll ts NewDateIndexCollector)) = 0).
Proof.
  split; [|split; [|split]].
  - split; [reflexivity|]. split; [apply GetIndexByMonth_read | apply GetIndexByDay_read].
  - intros HF. simpl. by apply never_added_year.
  - intros HF. rewrite GetIndexByMonth_read. simpl. by apply never_added_month.
  - intros HF. rewrite GetIndexByDay_read. simpl. by apply never_added_day.
Qed.

Lemma GetIndex_read_only_witness :
  let t := Ref.utc 2017 1 1 0 0 0 in
  let c := AddAll test_timestamps NewDateIndexCollector in
  snd (GetIndexByDay t c) = c /\
  fst (GetIndexByYear t c) = 0 /\
  fst (GetIndexByMonth t c) = 0 /\
  fst (GetIndexByDay t c) = 0.
Proof.
  intros t c.
  destruct (GetIndex_read_only t c test_timestamps) as ((_ & _ & HD) & HY0 & HM0 & HD0).
  split; [by rewrite HD|].
  split; [apply HY0 | split; [apply HM0 | apply HD0]];
    repeat (apply Forall_cons; split; [vm_compute; intuition discriminate|]);
    apply Forall_nil_2.
Defined.

(** ** The tag scanner *)

Section ScannerFacts.

Lemma append_cons (c : ascii) (a b : string) :
  String c a +:+ b = String c (a +:+ b).
Proof. reflexivity. Qed.

Lemma append_nil_r (a : string) : a +:+ EmptyString = a.
Proof. induction a as [|c a IH]; [done|]. by rewrite append_cons, IH. Qed.

Lemma append_assoc (a b c : string) : (a +:+ b) +:+ c = a +:+ b +:+ c.
Proof. induction a as [|x a IH]; [done|]. by rewrite !append_cons, IH. Qed.

Lemma list_ascii_app (a b : string) :
  list_ascii_of_string (a +:+ b) = list_ascii_of_string a ++ list_ascii_of_string b.
Proof. induction a as [|c a IH]; [done|]. rewrite append_cons. simpl. by rewrite IH. Qed.

Lemma scan_app sc a b : scan sc (a +:+ b) = scan (scan sc a) b.
Proof. unfold scan. by rewrite list_ascii_app, fold_left_app. Qed.

Lemma scan_cons sc r s : scan sc (String r s) = scan (scan_step sc r) s.
Proof. reflexivity. Qed.

(** Outside a tag the text up to the next opening brace changes nothing. *)
Lemma scan_outside tgs buf text :
  free_of "{" text ->
  scan (mkScanner tgs 0 buf) text = mkScanner tgs 0 buf.
Proof.
  unfold free_of. induction text as [|r text IH]; simpl; intros H; [done|].
  apply orb_false_iff in H as [Hr Htext].
  rewrite scan_cons. unfold scan_step. simpl. rewrite Hr. auto.
Qed.

(** Inside a tag the characters up to the closing brace go to the buffer. *)
Lemma scan_inside tgs buf name :
  free_of "}" name ->
  scan (mkScanner tgs 1 buf) name = mkScanner tgs 1 (buf +:+ name).
Proof.
  unfold free_of. revert buf.
  induction name as [|r name IH]; simpl; intros buf H.
  - unfold scan. simpl. by rewrite append_nil_r.
  - apply orb_false_iff in H as [Hr Hname].
    rewrite scan_cons. unfold scan_step. simpl. rewrite Hr. simpl.
    rewrite IH by done. by rewrite append_assoc.
Qed.

Lemma scan_tag tgs buf name :
  free_of "}" name ->
  scan (mkScanner tgs 0 buf) ("{" +:+ name +:+ "}") =
  mkScanner (tgs ++ [name]) 0 (name +:+ "}").
Proof.
  intros H. change ("{" +:+ name +:+ "}") with (String "{" (name +:+ "}")).
  rewrite scan_cons.
  change (scan_step (mkScanner tgs 0 buf) "{") with (mkScanner tgs 1 EmptyString).
  rewrite scan_app, scan_inside by done. reflexivity.
Qed.

Lemma scan_template tgs buf pieces rest :
  Forall (fun p => free_of "{" (fst p) /\ free_of "}" (snd p)) pieces ->
  exists buf',
    scan (mkScanner tgs 0 buf) (template pieces rest) =
    scan (mkScanner (tgs ++ map snd pieces) 0 buf') rest.
Proof.
  revert tgs buf.
  induction pieces as [|[text name] pieces IH]; intros tgs buf HF; simpl.
  - exists buf. by rewrite app_nil_r.
  - apply Forall_cons in HF as [[Htext Hname] HF]. simpl in *.
    rewrite scan_app, scan_outside by done.
    assert ("{" +:+ name +:+ "}" +:+ template pieces rest
            = ("{" +:+ name +:+ "}") +:+ template pieces rest) as ->.
    { by rewrite !append_assoc. }
    rewrite scan_app, scan_tag by done.
    destruct (IH (tgs ++ [name]) (name +:+ "}") HF) as [buf' ->].
    exists buf'. by rewrite <- app_assoc.
Qed.

Lemma first_occurrence (c : ascii) (s : string) :
  strings_Contains s c = true ->
  exists a b, s = a +:+ String c b /\ free_of c a.
Proof.
  induction s as [|x s IH]; simpl; [done|].
  destruct (Ascii.eqb x c) eqn:Ex; simpl.
  - intros _. apply Ascii.eqb_eq in Ex as ->. by exists EmptyString, s.
  - intros H. destruct (IH H) as (a & b & -> & Ha).
    exists (String x a), b. split; [done|].
    unfold free_of. simpl. by rewrite Ex.
Qed.

Lemma length_append (a b : string) :
  String.length (a +:+ b) = (String.length a + String.length b)%nat.
Proof. induction a as [|x a IH]; [done|]. rewrite append_cons. simpl. by rewrite IH. Qed.

(** Every string is a template: text and tags in turn, and at the end text
    without a brace, or text and an opening brace that is never closed. *)
Lemma template_complete (filePattern : string) :
  exists pieces rest,
    Forall (fun p => free_of "{" (fst p) /\ free_of "}" (snd p)) pieces /\
    free_of "{" rest /\
    (filePattern = template pieces rest \/
     exists frag, free_of "}" frag /\
       filePattern = template pieces (rest +:+ "{" +:+ frag)).
Proof.
  remember (String.length filePattern) as n eqn:Hn.
  assert (String.length filePattern <= n)%nat as Hle by lia. clear Hn.
  revert filePattern Hle.
  induction n as [|n IH]; intros s Hle.
  - destruct s; [|simpl in Hle; lia].
    exists [], EmptyString. split; [constructor|]. split; [done|]. by left.
  - destruct (strings_Contains s "{") eqn:Hopen.
    + apply first_occurrence in Hopen as (text & s' & -> & Htext).
      destruct (strings_Contains s' "}") eqn:Hclose.
      * apply first_occurrence in Hclose as (name & s'' & -> & Hname).
        destruct (IH s'') as (pieces & rest & Hwf & Hrest & Hs'').
        { rewrite !length_append in Hle. simpl in Hle.
          rewrite length_append in Hle. simpl in Hle. lia. }
        exists ((text, name) :: pieces), rest.
        split; [by constructor|]. split; [done|].
        destruct Hs'' as [->|(frag & Hfrag & ->)]; [by left|].
        right. by exists frag.
      * exists [], text. split; [constructor|]. split; [done|].
        right. by exists s'.
    + exists [], s. split; [constructor|]. split; [done|]. by left.
Qed.

End ScannerFacts.

(** C5: the tags of a template come out in the order in which they occur,
    every occurrence once; text without a tag yields no tag, and so does an
    opening brace that is never closed. *)
Theorem ExtractFileOutputTags_order (pieces : list (string * string))
    (rest frag filePattern : string) :
  (Forall (fun p => free_of "{" (fst p) /\ free_of "}" (snd p)) pieces ->
   free_of "{" rest -> free_of "}" frag ->
   ExtractFileOutputTags (template pieces rest) = map snd pieces /\
   ExtractFileOutputTags (template pieces (rest +:+ "{" +:+ frag)) = map snd pieces) /\
  (exists pieces' rest',
     Forall (fun p => free_of "{" (fst p) /\ free_of "}" (snd p)) pieces' /\
     free_of "{" rest' /\
     (filePattern = template pieces' rest' \/
      exists frag', free_of "}" frag' /\
        filePattern = template pieces' (rest' +:+ "{" +:+ frag')) /\
     ExtractFileOutputTags filePattern = map snd pieces') /\
  ExtractFileOutputTags "{a}_{b}_{a}" = ["a"; "b"; "a"] /\
  ExtractFileOutputTags "no tags here" = [] /\
  ExtractFileOutputTags "{unterminated" = [].
Proof.
  assert (forall pieces rest frag,
    Forall (fun p => free_of "{" (fst p) /\ free_of "}" (snd p)) pieces ->
    free_of "{" rest -> free_of "}" frag ->
    ExtractFileOutputTags (template pieces rest) = map snd pieces /\
    ExtractFileOutputTags (template pieces (rest +:+ "{" +:+ frag)) = map snd pieces)
    as Hgen.
  { clear. intros pieces rest frag HF Hrest Hfrag.
    unfold ExtractFileOutputTags. split.
    - destruct (scan_template [] EmptyString pieces rest HF) as [buf ->].
      by rewrite scan_outside.
    - destruct (scan_template [] EmptyString pieces (rest +:+ "{" +:+ frag) HF)
        as [buf ->].
      rewrite scan_app, scan_outside by done.
      change ("{" +:+ frag) with (String "{" frag).
      rewrite scan_cons. unfold scan_step. simpl.
      by rewrite scan_inside. }
  split; [apply Hgen|]. split; [|by vm_compute].
  destruct (template_complete filePattern) as (pieces' & rest' & Hwf & Hrest & Hform).
  exists pieces', rest'. split; [done|]. split; [done|]. split; [done|].
  destruct Hform as [->|(frag' & Hfrag & ->)].
  - by apply (Hgen pieces' rest' EmptyString).
  - by apply (Hgen pieces' rest' frag').
Qed.

Lemma ExtractFileOutputTags_order_witness :
  ExtractFileOutputTags
    (template [("IMG_", "DateTime.Year"); ("-", "Make"); ("-", "DateTime.Year")]
       ".jpg")
  = ["DateTime.Year"; "Make"; "DateTime.Year"].
Proof.
  refine (proj1 (proj1 (ExtractFileOutputTags_order
    [("IMG_", "DateTime.Year"); ("-", "Make"); ("-", "DateTime.Year")]
    ".jpg" "x" EmptyString) _ _ _)).
  - repeat (apply Forall_cons; split; [split; reflexivity|]). apply Forall_nil_2.
  - reflexivity.
  - reflexivity.
Defined.

(** The assertions of [TestExtractFileTags] and [TestReplaceTagInPattern]. *)
Example TestExtractFileTags :
  ExtractFileOutputTags DefaultFileOutputPattern =
  ["DateTime.Year"; "DateTime.Month"; "DateTime.Day"; "Make";
   "File.IndexByCaptureDate"; "File.Extension"].
Proof. reflexivity. Qed.

Example TestReplaceTagInPattern :
  ReplaceTagInPattern "{foo}_{bar}_{foo}" "foo" "123" = "123_{bar}_123" /\
  ReplaceTagInPattern "123_{bar}_123" "bar" "321" = "123_321_123".
Proof. split; reflexivity. Qed.

Section ScannerInvariant.

Lemma strings_Contains_app a b c :
  strings_Contains (a +:+ b) c = strings_Contains a c || strings_Contains b c.
Proof.
  induction a as [|x a IH]; [done|].
  rewrite append_cons. simpl. rewrite IH. by rewrite orb_assoc.
Qed.

Lemma scan_step_ok sc r : scanner_ok sc -> scanner_ok (scan_step sc r).
Proof.
  intros [Htags Hbuf]. unfold scan_step, scanner_ok, INSIDE in *.
  destruct (state sc =? 0) eqn:E0.
  - destruct (Ascii.eqb r "{"); simpl; [|by split].
    split; [done|]. intros _. reflexivity.
  - destruct (state sc =? 1) eqn:E1; [|by split].
    apply Z.eqb_eq in E1. specialize (Hbuf E1).
    destruct (Ascii.eqb r "}") eqn:Er; simpl.
    + split; [|discriminate]. apply Forall_app. split; [done|]. by apply Forall_singleton.
    + split; [done|]. intros _. unfold free_of.
      rewrite strings_Contains_app, Hbuf. simpl. by rewrite Er.
Qed.

Lemma scan_ok sc filePattern : scanner_ok sc -> scanner_ok (scan sc filePattern).
Proof.
  revert sc. induction filePattern as [|r s IH]; intros sc H; [done|].
  rewrite scan_cons. apply IH. by apply scan_step_ok.
Qed.

End ScannerInvariant.

(** C8, as stated, fails: on the closing brace the tag that is captured is
    the buffer without the brace. *)
Lemma closing_brace_not_captured : ~ captures_closing_brace.
Proof.
  intros H. specialize (H (mkScanner [] INSIDE "a") eq_refl).
  vm_compute in H. discriminate.
Qed.

(** C8, amended: inside a tag every character goes to the buffer, the
    closing brace as well; on the closing brace the scanner is outside again
    and the tag it captures is the buffer as it was before the brace went
    in, so that no captured tag has a closing brace. *)
Theorem scan_step_inside (sc : Scanner) (r : ascii) (filePattern : string) :
  state sc = INSIDE ->
  tag (scan_step sc r) = tag sc +:+ String r EmptyString /\
  (r = "}"%char ->
   state (scan_step sc r) = OUTSIDE /\ tags (scan_step sc r) = tags sc ++ [tag sc]) /\
  (r <> "}"%char ->
   state (scan_step sc r) = INSIDE /\ tags (scan_step sc r) = tags sc) /\
  Forall (free_of "}") (ExtractFileOutputTags filePattern).
Proof.
  intros Hin. unfold scan_step. rewrite Hin. simpl.
  split; [|split; [|split]].
  - by destruct (Ascii.eqb r "}").
  - intros ->. simpl. done.
  - intros Hr. apply Ascii.eqb_neq in Hr. rewrite Hr. simpl. done.
  - unfold ExtractFileOutputTags.
    apply (scan_ok (mkScanner [] 0 EmptyString) filePattern).
    split; [constructor | discriminate].
Qed.

Lemma scan_step_inside_witness :
  let sc := scan (mkScanner [] 0 EmptyString) "{a" in
  state sc = INSIDE /\
  tag (scan_step sc "}") = "a}" /\
  tags (scan_step sc "}") = ["a"] /\
  state (scan_step sc "}") = OUTSIDE.
Proof.
  intros sc.
  assert (state sc = INSIDE) as H by reflexivity.
  destruct (scan_step_inside sc "}" "{a}" H) as (Hbuf & Hclose & _ & _).
  destruct (Hclose eq_refl) as [Hst Htags].
  split; [exact H|]. split; [exact Hbuf|]. split; [exact Htags | exact Hst].
Defined.

(** ** The resolver *)

Section ResolverFacts.

Context {P : Platform}.

Implicit Types (fs : FS) (t : Time) (exifData : Exif) (c : DateIndexCollector).

Lemma strings_Split_nonempty (a : string) (sep : ascii) :
  strings_Split a sep <> [].
Proof.
  destruct a as [|x a]; simpl; [done|].
  destruct (Ascii.eqb x sep); [done|]. by destruct (strings_Split a sep).
Qed.

Lemma strings_Split_app (a b : string) (sep : ascii) :
  strings_Split (a +:+ String sep b) sep = strings_Split a sep ++ strings_Split b sep.
Proof.
  induction a as [|x a IH].
  - simpl. by rewrite Ascii.eqb_refl.
  - rewrite append_cons. simpl. rewrite IH.
    destruct (Ascii.eqb x sep); [done|].
    pose proof (strings_Split_nonempty a sep).
    by destruct (strings_Split a sep).
Qed.

Lemma strings_Split_free (a : string) (sep : ascii) :
  free_of sep a -> strings_Split a sep = [a].
Proof.
  unfold free_of. induction a as [|x a IH]; simpl; [done|].
  intros H. apply orb_false_iff in H as [Hx Ha].
  by rewrite Hx, IH.
Qed.

(** Resolving reads the collector and leaves it as it is. *)
Lemma GetFileTagValue_frame fs t filePath tag properties c :
  snd (GetFileTagValue fs t filePath tag properties c) = c.
Proof.
  unfold GetFileTagValue.
  destruct (os_Stat fs filePath); [|done].
  destruct properties as [|property rest]; [done|].
  repeat (match goal with |- context [if ?b then _ else _] => destruct b end);
    done.
Qed.

Lemma resolve_frame fs t exifData filePath outputTag c :
  snd (resolve fs t exifData filePath outputTag c) = c.
Proof.
  unfold resolve. destruct (ParseTagProperties outputTag) as [tag properties].
  destruct (String.eqb tag "File"); [apply GetFileTagValue_frame | done].
Qed.

Lemma GetTagValue_loop_spec fs t exifData filePath outputTags tagValue c :
  GetTagValue_loop fs t exifData filePath outputTags tagValue c =
  (default tagValue
     (last (successes
        (map (fun alt => fst (resolve fs t exifData filePath alt c)) outputTags))),
   c).
Proof.
  revert tagValue. induction outputTags as [|outputTag rest IH]; intros tagValue;
    [done|].
  simpl. unfold bind.
  pose proof (resolve_frame fs t exifData filePath outputTag c) as Hc.
  destruct (resolve fs t exifData filePath outputTag c) as [[value err] c'].
  simpl in Hc. subst c'. unfold successes. simpl.
  destruct err as [e|]; simpl; rewrite IH; [done|].
  rewrite last_cons. by destruct (last _).
Qed.

Lemma GetTagValue_spec fs t exifData filePath fileTag c :
  GetTagValue fs t exifData filePath fileTag c =
  ((last_success
      (map (fun alt => fst (resolve fs t exifData filePath alt c))
         (strings_Split fileTag "|")), nil), c).
Proof. unfold GetTagValue, bind. by rewrite GetTagValue_loop_spec. Qed.

Lemma successes_app r1 r2 : successes (r1 ++ r2) = successes r1 ++ successes r2.
Proof. unfold successes. apply omap_app. Qed.

Lemma GetFileTagValue_no_stat fs t filePath tag properties c e :
  os_Stat fs filePath = Fail e ->
  GetFileTagValue fs t filePath tag properties c = ((EmptyString, Some e), c).
Proof. intros Hstat. unfold GetFileTagValue. by rewrite Hstat. Qed.

(** With the file stat'ed, the index properties are read off the collector. *)
Lemma GetFileTagValue_indices fs t filePath tag properties c fileMeta :
  os_Stat fs filePath = Ok fileMeta ->
  GetFileTagValue fs t filePath tag ("Index" :: properties) c
    = ((Sprintf_0d 6 (Count c), nil), c) /\
  GetFileTagValue fs t filePath tag ("IndexByCaptureYear" :: properties) c
    = ((Sprintf_0d 6 (year_count c (Year t)), nil), c) /\
  GetFileTagValue fs t filePath tag ("IndexByCaptureMonth" :: properties) c
    = ((Sprintf_0d 6 (month_count c (Year t) (Month t)), nil), c) /\
  GetFileTagValue fs t filePath tag ("IndexByCaptureDate" :: properties) c
    = ((Sprintf_0d 6 (day_count c (Year t) (Month t) (Day t)), nil), c).
Proof.
  intros Hstat. unfold GetFileTagValue. rewrite Hstat. simpl. unfold bind.
  rewrite GetIndexByMonth_read, GetIndexByDay_read. done.
Qed.

(** A tag with one alternative. *)
Lemma GetTagValue_single fs t exifData filePath outputTag c :
  strings_Split outputTag "|" = [outputTag] ->
  GetTagValue fs t exifData filePath outputTag c =
  match fst (resolve fs t exifData filePath outputTag c) with
  | (value, None) => ((value, nil), c)
  | (_, Some _) => ((EmptyString, nil), c)
  end.
Proof.
  intros Hsplit. rewrite GetTagValue_spec, Hsplit. simpl.
  by destruct (fst (resolve fs t exifData filePath outputTag c)) as [value [e|]].
Qed.

End ResolverFacts.

(** C1: GetTagValue goes through the alternatives of a tag from left to
    right and its value is the value of the last alternative that resolved
    without an error: a later alternative that resolves replaces the value,
    a later alternative that fails leaves it; when every alternative fails
    the value is the empty string. The error of GetTagValue is nil in every
    case, and the collector is as before. *)
Theorem GetTagValue_last_success `{P : Platform} (fs : FS) (t : Time)
    (exifData : Exif) (filePath fileTag : string) (c : DateIndexCollector) :
  let results := map (fun alt => fst (resolve fs t exifData filePath alt c))
                   (strings_Split fileTag "|") in
  GetTagValue fs t exifData filePath fileTag c = ((last_success results, nil), c) /\
  (Forall (fun r => snd r <> nil) results ->
   GetTagValue fs t exifData filePath fileTag c = ((EmptyString, nil), c)) /\
  (forall alt, free_of "|" alt ->
   GetTagValue fs t exifData filePath (fileTag +:+ "|" +:+ alt) c =
   match fst (resolve fs t exifData filePath alt c) with
   | (value, None) => ((value, nil), c)
   | (_, Some _) => GetTagValue fs t exifData filePath fileTag c
   end).
Proof.
  intros results. split; [apply GetTagValue_spec|]. split.
  - intros Hfail. rewrite GetTagValue_spec. fold results.
    assert (successes results = []) as E.
    { clear -Hfail. induction results as [|[v [e|]] rs IH]; [done| |].
      - apply Forall_cons in Hfail as [_ Hfail]. unfold successes in *. simpl. auto.
      - apply Forall_cons in Hfail as [Hr _]. by destruct Hr. }
    unfold last_success. by rewrite E.
  - intros alt Halt. rewrite !GetTagValue_spec. fold results.
    change ("|" +:+ alt) with (String "|" alt).
    rewrite strings_Split_app, (strings_Split_free alt) by done.
    rewrite map_app. fold results. simpl.
    unfold last_success. rewrite successes_app.
    destruct (fst (resolve fs t exifData filePath alt c)) as [value [e|]];
      unfold successes at 2; simpl.
    + by rewrite app_nil_r.
    + by rewrite last_snoc.
Qed.

Lemma GetTagValue_last_success_witness :
  let c := NewDateIndexCollector in
  GetTagValue (P := Ref.platform) sample_fs zeroTime (Some sample_exif) "b.jpg" "Make|Model" c
    = (("Canon", nil), c) /\
  GetTagValue (P := Ref.platform) sample_fs zeroTime (Some sample_exif) "b.jpg" "Model|Make" c
    = (("Canon", nil), c) /\
  GetTagValue (P := Ref.platform) sample_fs zeroTime (Some sample_exif) "b.jpg" "Model|Software" c
    = ((EmptyString, nil), c).
Proof.
  intros c. split; [|split].
  - destruct (GetTagValue_last_success (P := Ref.platform) sample_fs zeroTime (Some sample_exif)
                "b.jpg" "Make" c) as (_ & _ & H).
    exact (H "Model" eq_refl).
  - destruct (GetTagValue_last_success (P := Ref.platform) sample_fs zeroTime (Some sample_exif)
                "b.jpg" "Model" c) as (_ & _ & H).
    exact (H "Make" eq_refl).
  - destruct (GetTagValue_last_success (P := Ref.platform) sample_fs zeroTime (Some sample_exif)
                "b.jpg" "Model|Software" c) as (_ & H & _).
    apply H. repeat (apply Forall_cons; split; [discriminate|]). apply Forall_nil_2.
Defined.

(** C10: an alternative of the File category stats the file first and fails
    when the stat fails, whatever the property, so that GetTagValue passes
    the alternative over; Index and the three IndexByCapture properties
    fail in the same way, although the values they have when the stat
    succeeds are computed from the collector and the capture time alone. *)
Theorem File_alternative_stats_first `{P : Platform} (fs fs' : FS) (t : Time)
    (exifData : Exif) (filePath tag : string) (properties : list string)
    (c : DateIndexCollector) (e : string) (fileMeta : FileInfo)
    (outputTag : string) (rest : list string) (tagValue : string) :
  (os_Stat fs filePath = Fail e ->
   GetFileTagValue fs t filePath tag properties c = ((EmptyString, Some e), c) /\
   (fst (ParseTagProperties outputTag) = "File" ->
    GetTagValue_loop fs t exifData filePath (outputTag :: rest) tagValue c =
    GetTagValue_loop fs t exifData filePath rest tagValue c)) /\
  (os_Stat fs' filePath = Ok fileMeta ->
   GetFileTagValue fs' t filePath tag ("Index" :: properties) c
     = ((Sprintf_0d 6 (Count c), nil), c) /\
   GetFileTagValue fs' t filePath tag ("IndexByCaptureYear" :: properties) c
     = ((Sprintf_0d 6 (year_count c (Year t)), nil), c) /\
   GetFileTagValue fs' t filePath tag ("IndexByCaptureMonth" :: properties) c
     = ((Sprintf_0d 6 (month_count c (Year t) (Month t)), nil), c) /\
   GetFileTagValue fs' t filePath tag ("IndexByCaptureDate" :: properties) c
     = ((Sprintf_0d 6 (day_count c (Year t) (Month t) (Day t)), nil), c)).
Proof.
  split.
  - intros Hstat. split; [by apply GetFileTagValue_no_stat|].
    intros Hfile. simpl. unfold bind, resolve.
    destruct (ParseTagProperties outputTag) as [tag' properties']. simpl in Hfile.
    subst tag'. simpl. by rewrite (GetFileTagValue_no_stat _ _ _ _ _ _ e).
  - apply GetFileTagValue_indices.
Qed.

Lemma File_alternative_stats_first_witness :
  let c := AddAll test_timestamps NewDateIndexCollector in
  let t := Ref.utc 2016 1 3 0 0 0 in
  GetFileTagValue (P := Ref.platform) sample_fs t "missing.jpg" "File" ["Index"] c
    = ((EmptyString, Some "no such file or directory"), c) /\
  GetTagValue_loop (P := Ref.platform) sample_fs t (Some sample_exif) "missing.jpg"
    ["File.IndexByCaptureDate"] "Canon" c = ("Canon", c) /\
  GetFileTagValue (P := Ref.platform) sample_fs t "b.jpg" "File" ["IndexByCaptureDate"] c
    = (("000003", nil), c).
Proof.
  intros c t.
  destruct (File_alternative_stats_first (P := Ref.platform) sample_fs sample_fs t (Some sample_exif)
    "missing.jpg" "File" ["Index"] c "no such file or directory"
    (mkFileInfo EmptyString 0 zeroTime) "File.IndexByCaptureDate" [] "Canon")
    as [Hfail _].
  destruct (Hfail eq_refl) as [H1 H2].
  split; [exact H1|]. split; [exact (H2 eq_refl)|].
  destruct (File_alternative_stats_first (P := Ref.platform) sample_fs sample_fs t (Some sample_exif)
    "b.jpg" "File" [] c EmptyString
    (mkFileInfo "b.jpg" 2048 (Ref.utc 2016 3 5 12 0 0)) EmptyString [] EmptyString)
    as [_ Hok].
  destruct (Hok eq_refl) as (_ & _ & _ & H4).
  exact H4.
Defined.

(** ** Timestamp properties *)

Section TimestampFacts.

Lemma TimestampProp_unrecognized timestamp property more :
  recognized property = false ->
  TimestampProp timestamp (property :: more) = Format_RFC3339 timestamp.
Proof.
  unfold recognized. simpl. intros H.
  repeat (apply orb_false_iff in H as [?E H]).
  unfold TimestampProp.
  repeat match goal with E : String.eqb property _ = false |- _ =>
    rewrite E; clear E end.
  reflexivity.
Qed.

(** For the modification time of a file the property may be left out:
    [FileProp] passes the empty name on. *)
Lemma FileProp_ModTime_without_property fileMeta :
  FileProp fileMeta ["ModTime"] = Format_RFC3339 (ModTime fileMeta).
Proof. reflexivity. Qed.

End TimestampFacts.

(** C7: for a timestamp-bearing field whose value parses, a property name
    that is none of the recognized ones resolves to the full timestamp
    string, without an error, and so does TimestampProp when the property
    is absent; GetExifTagValue, however, does not call TimestampProp when
    the property is absent, and resolves the field to the empty string. *)
Theorem timestamp_field_property `{P : Platform} (exifData : Exif) (tag : string)
    (exifTag : Tag) (value : string) (timestamp : Time)
    (property : string) (more : list string) :
  timestampFields tag = true ->
  exif_Get exifData tag = Ok exifTag ->
  tag_StringVal exifTag = Ok value ->
  time_Parse timestampFormat value = Ok timestamp ->
  (recognized property = false ->
   GetExifTagValue exifData tag (property :: more) = (Format_RFC3339 timestamp, nil)) /\
  TimestampProp timestamp [] = Format_RFC3339 timestamp /\
  GetExifTagValue exifData tag [] = (EmptyString, nil).
Proof.
  intros Hfield Hget Hval Hparse. unfold GetExifTagValue.
  rewrite Hget, Hval, Hfield, Hparse.
  split; [|by split].
  intros Hp. by rewrite TimestampProp_unrecognized.
Qed.

Lemma timestamp_field_property_witness :
  GetExifTagValue (P := Ref.platform) (Some sample_exif) "DateTime" ["Date"]
    = ("2016-03-04T10:00:00Z", nil) /\
  TimestampProp (Ref.utc 2016 3 4 10 0 0) [] = "2016-03-04T10:00:00Z" /\
  GetExifTagValue (P := Ref.platform) (Some sample_exif) "DateTime" []
    = (EmptyString, nil).
Proof.
  destruct (timestamp_field_property (P := Ref.platform) (Some sample_exif)
    "DateTime" (Ok "2016:03:04 10:00:00") "2016:03:04 10:00:00"
    (Ref.utc 2016 3 4 10 0 0) "Date" [] eq_refl eq_refl eq_refl eq_refl)
    as (H1 & H2 & H3).
  split; [exact (H1 eq_refl)|]. split; [exact H2 | exact H3].
Defined.

(** ** The renderer *)

Section RendererFacts.

Context {P : Platform}.

Implicit Types (fs : FS) (t : Time) (exifData : Exif) (c : DateIndexCollector)
  (st : Run).

Lemma render_spec fs t exifData file fileTags outputFilename c :
  render fs t exifData file fileTags outputFilename c =
  ((rendered fs t exifData file c fileTags outputFilename, nil), c).
Proof.
  revert outputFilename.
  induction fileTags as [|tag rest IH]; intros outputFilename; [done|].
  simpl. unfold bind.
  pose proof (GetTagValue_spec fs t exifData file tag c) as E.
  destruct (GetTagValue fs t exifData file tag c) as [[value err] c'].
  injection E as -> -> ->. cbn iota. unfold nil. cbn iota. by rewrite IH.
Qed.

Lemma GetFileCaptureTime_error fs file e :
  snd (GetFileCaptureTime fs file) = Some e ->
  fst (fst (GetFileCaptureTime fs file)) = zeroTime.
Proof.
  unfold GetFileCaptureTime, parse_timestamp.
  destruct (GetExifData fs file) as [exifData [e'|]]; [done|].
  destruct (capture_tag exifData) as [exifTag|]; [|done].
  destruct (tag_StringVal exifTag) as [value|]; [|done].
  by destruct (time_Parse timestampFormat value).
Qed.

Lemma IncrementCaptureIndex_error fs file c e :
  snd (GetFileCaptureTime fs file) = Some e ->
  IncrementCaptureIndex fs file c = (GetFileCaptureTime fs file, c).
Proof.
  unfold IncrementCaptureIndex.
  destruct (GetFileCaptureTime fs file) as [[t exifData] err]. simpl.
  by intros ->.
Qed.

Lemma IncrementCaptureIndex_ok fs file c t exifData :
  GetFileCaptureTime fs file = (t, exifData, nil) ->
  IncrementCaptureIndex fs file c = ((t, exifData, nil), snd (Add t c)).
Proof.
  unfold IncrementCaptureIndex. intros ->. unfold bind, nil.
  by destruct (Add t c) as [[] c'].
Qed.

(** One file of the loop, once the capture step is known. *)
Lemma ApplyPattern_file_spec dryRun fileTags pattern file st :
  ApplyPattern_file dryRun fileTags pattern file st =
  let '(t, exifData, err) := GetFileCaptureTime (files_state st) file in
  let c1 := match err with
            | None => snd (Add t (collector st))
            | Some _ => collector st
            end in
  let name := rendered (files_state st) t exifData file c1 fileTags pattern in
  if dryRun
  then (mkRun c1 (files_state st) (printed st ++ [dry_line file name]), nil)
  else let (fs', err') := os_Rename (files_state st) file name in
       (mkRun c1 fs' (printed st), err').
Proof.
  unfold ApplyPattern_file.
  destruct (GetFileCaptureTime (files_state st) file) as [[t exifData] [e|]] eqn:E.
  - rewrite (IncrementCaptureIndex_error _ _ _ e) by (by rewrite E).
    rewrite E, render_spec. done.
  - rewrite (IncrementCaptureIndex_ok _ _ _ t exifData) by done.
    rewrite render_spec. done.
Qed.

(** A dry run goes through all the files: one line each, no error. *)
Lemma dry_run_all fileTags pattern files st :
  snd (ApplyPattern_loop true fileTags pattern files st) = nil /\
  length (printed (fst (ApplyPattern_loop true fileTags pattern files st)))
    = (length (printed st) + length files)%nat /\
  files_state (fst (ApplyPattern_loop true fileTags pattern files st))
    = files_state st.
Proof.
  revert st. induction files as [|file rest IH]; intros st.
  - simpl. repeat split. lia.
  - simpl. rewrite ApplyPattern_file_spec.
    destruct (GetFileCaptureTime (files_state st) file) as [[t exifData] err].
    cbv beta iota zeta delta [nil].
    match goal with |- context [ApplyPattern_loop _ _ _ rest ?st'] =>
      destruct (IH st') as (H1 & H2 & H3); rewrite H1, H2, H3 end.
    simpl. rewrite length_app. simpl. repeat split. lia.
Qed.

(** The loop over a sequence followed by another: the second part starts
    where the first part ended, if the first part ended without an error. *)
Lemma ApplyPattern_loop_app dryRun fileTags pattern files later st :
  ApplyPattern_loop dryRun fileTags pattern (files ++ later) st =
  match ApplyPattern_loop dryRun fileTags pattern files st with
  | (st', Some e) => (st', Some e)
  | (st', None) => ApplyPattern_loop dryRun fileTags pattern later st'
  end.
Proof.
  revert st. induction files as [|file rest IH]; intros st; [done|].
  simpl. destruct (ApplyPattern_file dryRun fileTags pattern file st) as [st' [e|]];
    [done | apply IH].
Qed.

(** What is printed stays printed. *)
Lemma printed_grows dryRun fileTags pattern files st :
  printed st `prefix_of` printed (fst (ApplyPattern_loop dryRun fileTags pattern files st)).
Proof.
  revert st. induction files as [|file rest IH]; intros st; [done|].
  simpl.
  assert (printed st `prefix_of`
          printed (fst (ApplyPattern_file dryRun fileTags pattern file st))) as Hstep.
  { rewrite ApplyPattern_file_spec.
    destruct (GetFileCaptureTime (files_state st) file) as [[t exifData] err].
    cbv zeta. destruct dryRun.
    - simpl. by apply prefix_app_r.
    - by destruct (os_Rename _ _ _). }
  destruct (ApplyPattern_file dryRun fileTags pattern file st) as [st' [e|]].
  - exact Hstep.
  - etrans; [exact Hstep | apply IH].
Qed.

(** The step of a file whose capture time is not available. *)
Lemma ApplyPattern_file_capture_error fileTags pattern file st e :
  snd (GetFileCaptureTime (files_state st) file) = Some e ->
  let fs := files_state st in
  let exifData := snd (fst (GetFileCaptureTime fs file)) in
  let name := rendered fs zeroTime exifData file (collector st) fileTags pattern in
  IncrementCaptureIndex fs file (collector st)
    = ((zeroTime, exifData, Some e), collector st) /\
  ApplyPattern_file true fileTags pattern file st
    = (mkRun (collector st) fs (printed st ++ [dry_line file name]), nil) /\
  ApplyPattern_file false fileTags pattern file st
    = (mkRun (collector st) (fst (os_Rename fs file name)) (printed st),
       snd (os_Rename fs file name)).
Proof.
  intros He. cbv zeta.
  pose proof (GetFileCaptureTime_error (files_state st) file e He) as Hzero.
  pose proof (IncrementCaptureIndex_error (files_state st) file (collector st) e He)
    as Hinc.
  split; [|split].
  - rewrite Hinc.
    destruct (GetFileCaptureTime (files_state st) file) as [[t exifData] err].
    simpl in *. by subst.
  - rewrite ApplyPattern_file_spec.
    destruct (GetFileCaptureTime (files_state st) file) as [[t exifData] err].
    simpl in *. by subst.
  - rewrite ApplyPattern_file_spec.
    destruct (GetFileCaptureTime (files_state st) file) as [[t exifData] err].
    simpl in *. subst. by destruct (os_Rename _ _ _).
Qed.

End RendererFacts.

(** C2, as stated, fails: c.jpg has none of the three date fields, and
    ApplyPattern returns no error; c.jpg is rendered, and so is b.jpg after
    it. Without the dryrun flag both files are renamed. *)
Lemma batch_goes_on_without_capture_time :
  let tags := ExtractFileOutputTags scenario_pattern in
  let dry := ApplyPattern (P := Ref.platform) true sample_fs ["c.jpg"; "b.jpg"]
               tags scenario_pattern in
  let wet := ApplyPattern (P := Ref.platform) false sample_fs ["c.jpg"; "b.jpg"]
               tags scenario_pattern in
  snd (GetFileCaptureTime (P := Ref.platform) sample_fs "c.jpg")
    = Some "exif: tag not present" /\
  snd dry = nil /\
  printed (fst dry)
    = [dry_line "c.jpg" "_000000.jpg"; dry_line "b.jpg" "201603_000001.jpg"] /\
  snd wet = nil /\
  files_state (fst wet) !! "c.jpg" = None /\
  files_state (fst wet) !! "_000000.jpg" = sample_fs !! "c.jpg" /\
  files_state (fst wet) !! "201603_000001.jpg" = sample_fs !! "b.jpg".
Proof. vm_compute. repeat split. Qed.

(** C2, amended: when none of the date fields resolves for a file,
    IncrementCaptureIndex returns the error and does not call Add, but
    ApplyPattern does not look at that error: the file is rendered with the
    zero time and printed or renamed like any other file, and the loop goes
    on; the only error that stops the loop is the error of a rename, and a
    dry run prints one line for every file and returns nil. *)
Theorem capture_error_is_dropped `{P : Platform} (fileTags : list string)
    (pattern file : string) (st : Run) (e : string) (files : list string) :
  snd (GetFileCaptureTime (files_state st) file) = Some e ->
  let fs := files_state st in
  let exifData := snd (fst (GetFileCaptureTime fs file)) in
  let name := rendered fs zeroTime exifData file (collector st) fileTags pattern in
  IncrementCaptureIndex fs file (collector st)
    = ((zeroTime, exifData, Some e), collector st) /\
  ApplyPattern_file true fileTags pattern file st
    = (mkRun (collector st) fs (printed st ++ [dry_line file name]), nil) /\
  ApplyPattern_file false fileTags pattern file st
    = (mkRun (collector st) (fst (os_Rename fs file name)) (printed st),
       snd (os_Rename fs file name)) /\
  (forall dryRun file' st' e',
     snd (ApplyPattern_file dryRun fileTags pattern file' st') = Some e' ->
     dryRun = false /\
     exists name', snd (os_Rename (files_state st') file' name') = Some e') /\
  snd (ApplyPattern true fs files fileTags pattern) = nil /\
  length (printed (fst (ApplyPattern true fs files fileTags pattern))) = length files.
Proof.
  intros He. cbv zeta.
  destruct (ApplyPattern_file_capture_error fileTags pattern file st e He)
    as (Hinc & Hdry & Hwet).
  split; [exact Hinc|]. split; [exact Hdry|]. split; [exact Hwet|]. split.
  - clear. intros dryRun file' st' e'. rewrite ApplyPattern_file_spec.
    destruct (GetFileCaptureTime (files_state st') file') as [[t exifData] err].
    cbv zeta. destruct dryRun; [discriminate|].
    intros Hren. split; [done|].
    match goal with H : context [os_Rename _ _ ?n] |- _ => exists n end.
    by destruct (os_Rename _ _ _).
  - unfold ApplyPattern.
    destruct (dry_run_all fileTags pattern files
                (mkRun NewDateIndexCollector (files_state st) []))
      as (H1 & H2 & _).
    split; [exact H1 | exact H2].
Qed.

Lemma capture_error_is_dropped_witness :
  let st := mkRun (P := Ref.platform) NewDateIndexCollector sample_fs [] in
  snd (GetFileCaptureTime (P := Ref.platform) sample_fs "c.jpg")
    = Some "exif: tag not present" /\
  ApplyPattern_file (P := Ref.platform) true
    (ExtractFileOutputTags scenario_pattern) scenario_pattern "c.jpg" st
  = (mkRun (P := Ref.platform) NewDateIndexCollector sample_fs
       [dry_line "c.jpg" "_000000.jpg"], nil).
Proof.
  intros st.
  assert (snd (GetFileCaptureTime (P := Ref.platform) (files_state st) "c.jpg")
          = Some "exif: tag not present") as H by reflexivity.
  split; [exact H|].
  destruct (capture_error_is_dropped (P := Ref.platform)
    (ExtractFileOutputTags scenario_pattern) scenario_pattern "c.jpg" st
    "exif: tag not present" [] H) as (_ & Hdry & _).
  exact Hdry.
Defined.

(** C3, as stated, fails: d.jpg was taken on the first day of year 1; the
    capture time of c.jpg after it cannot be determined, and the
    IndexByCaptureDate of c.jpg reads 1, the bucket of d.jpg. *)
Lemma index_of_the_zero_time :
  let tags := ExtractFileOutputTags index_pattern in
  let r := ApplyPattern (P := Ref.platform) true sample_fs ["d.jpg"; "c.jpg"]
             tags index_pattern in
  snd (GetFileCaptureTime (P := Ref.platform) sample_fs "d.jpg") = nil /\
  snd (GetFileCaptureTime (P := Ref.platform) sample_fs "c.jpg")
    = Some "exif: tag not present" /\
  printed (fst r) = [dry_line "d.jpg" "000001.jpg"; dry_line "c.jpg" "000001.jpg"].
Proof. vm_compute. repeat split. Qed.

(** C3, amended: a file whose capture time cannot be determined is rendered
    all the same, and the collector is after the file what it was before
    (Add is not called). Its IndexByCapture tags are resolved with the zero
    time: they read the buckets of year 1, January, day 1, which are zero
    as long as no timestamp of year 1 has been added. What has been printed
    for the file is not changed by the files after it. *)
Theorem file_without_capture_time `{P : Platform} (dryRun : bool)
    (fileTags : list string) (pattern file : string) (st : Run) (e : string)
    (fileMeta : FileInfo) (ts : list Time) (later : list string) :
  snd (GetFileCaptureTime (files_state st) file) = Some e ->
  let fs := files_state st in
  let c := collector st in
  let exifData := snd (fst (GetFileCaptureTime fs file)) in
  ApplyPattern_file true fileTags pattern file st
    = (mkRun c fs
         (printed st ++
          [dry_line file (rendered fs zeroTime exifData file c fileTags pattern)]),
       nil) /\
  collector (fst (ApplyPattern_file dryRun fileTags pattern file st)) = c /\
  (os_Stat fs file = Ok fileMeta ->
   GetTagValue fs zeroTime exifData file "File.IndexByCaptureYear" c
     = ((Sprintf_0d 6 (year_count c 1), nil), c) /\
   GetTagValue fs zeroTime exifData file "File.IndexByCaptureMonth" c
     = ((Sprintf_0d 6 (month_count c 1 1), nil), c) /\
   GetTagValue fs zeroTime exifData file "File.IndexByCaptureDate" c
     = ((Sprintf_0d 6 (day_count c 1 1 1), nil), c) /\
   (c = AddAll ts NewDateIndexCollector -> Forall (fun t => Year t <> 1) ts ->
    year_count c 1 = 0 /\ month_count c 1 1 = 0 /\ day_count c 1 1 1 = 0)) /\
  printed (fst (ApplyPattern_file dryRun fileTags pattern file st))
    `prefix_of`
  printed (fst (ApplyPattern_loop dryRun fileTags pattern (file :: later) st)).
Proof.
  intros He. cbv zeta.
  destruct (ApplyPattern_file_capture_error fileTags pattern file st e He)
    as (_ & Hdry & Hwet).
  split; [exact Hdry|]. split; [|split].
  - destruct dryRun; [by rewrite Hdry | by rewrite Hwet].
  - intros Hstat.
    rewrite !GetTagValue_single by reflexivity.
    unfold resolve.
    change (ParseTagProperties "File.IndexByCaptureYear")
      with ("File", ["IndexByCaptureYear"]).
    change (ParseTagProperties "File.IndexByCaptureMonth")
      with ("File", ["IndexByCaptureMonth"]).
    change (ParseTagProperties "File.IndexByCaptureDate")
      with ("File", ["IndexByCaptureDate"]).
    cbv iota. change (String.eqb "File" "File") with true. cbv iota.
    destruct (GetFileTagValue_indices (files_state st) zeroTime file "File" []
                (collector st) fileMeta Hstat) as (_ & HY & HM & HD).
    rewrite HY, HM, HD. simpl.
    repeat (split; [reflexivity|]).
    intros -> HF.
    split; [|split].
    + apply (never_added_year zeroTime). exact HF.
    + apply (never_added_month zeroTime).
      eapply Forall_impl; [exact HF|]. simpl. intros t Ht [Hy _]. by apply Ht.
    + apply (never_added_day zeroTime).
      eapply Forall_impl; [exact HF|]. simpl. intros t Ht [Hy _]. by apply Ht.
  - simpl.
    destruct (ApplyPattern_file dryRun fileTags pattern file st) as [st' [e'|]];
      [done | apply printed_grows].
Qed.

Lemma file_without_capture_time_witness :
  let tags := ExtractFileOutputTags index_pattern in
  let st := fst (ApplyPattern (P := Ref.platform) true sample_fs ["b.jpg"]
                   tags index_pattern) in
  snd (GetFileCaptureTime (P := Ref.platform) (files_state st) "c.jpg")
    = Some "exif: tag not present" /\
  ApplyPattern_file (P := Ref.platform) true tags index_pattern "c.jpg" st
    = (mkRun (P := Ref.platform) (collector st) sample_fs
         [dry_line "b.jpg" "000001.jpg"; dry_line "c.jpg" "000000.jpg"], nil) /\
  day_count (collector st) 1 1 1 = 0.
Proof.
  intros tags st.
  assert (snd (GetFileCaptureTime (P := Ref.platform) (files_state st) "c.jpg")
          = Some "exif: tag not present") as H by reflexivity.
  split; [exact H|].
  destruct (file_without_capture_time (P := Ref.platform) true tags index_pattern
    "c.jpg" st "exif: tag not present"
    (mkFileInfo "c.jpg" 2048 (Ref.utc 2016 3 5 12 0 0))
    [Ref.utc 2016 3 4 10 0 0] [] H) as (Hdry & _ & Htags & _).
  split; [exact Hdry|].
  destruct (Htags eq_refl) as (_ & _ & _ & Hzero).
  apply Hzero; [reflexivity|].
  apply Forall_cons. split; [discriminate | apply Forall_nil_2].
Defined.

(** ** The scenario of the specification *)

Section ScenarioFacts.

Context {P : Platform}.

Lemma scenario_tags :
  ExtractFileOutputTags scenario_pattern =
  ["DateTime.Year"; "DateTime.Month"; "File.IndexByCaptureDate"; "File.Extension"].
Proof. reflexivity. Qed.

(** A property of the DateTime field, for a value that parses. *)
Lemma GetTagValue_DateTime fs t exifData file c exifTag value timestamp
    (outputTag property : string) :
  exif_Get exifData "DateTime" = Ok exifTag ->
  tag_StringVal exifTag = Ok value ->
  time_Parse timestampFormat value = Ok timestamp ->
  strings_Split outputTag "|" = [outputTag] ->
  ParseTagProperties outputTag = ("DateTime", [property]) ->
  GetTagValue fs t exifData file outputTag c
    = ((TimestampProp timestamp [property], nil), c).
Proof.
  intros Hget Hval Hparse Hsplit Hprops.
  rewrite GetTagValue_single by done.
  unfold resolve. rewrite Hprops.
  change (String.eqb "DateTime" "File") with false. cbv iota.
  unfold ret, GetExifTagValue. simpl fst. rewrite Hget, Hval.
  change (timestampFields "DateTime") with true. cbv iota.
  by rewrite Hparse.
Qed.

Lemma GetTagValue_Extension fs t exifData file c fileMeta :
  os_Stat fs file = Ok fileMeta ->
  GetTagValue fs t exifData file "File.Extension" c
    = ((strings_Replace (filepath_Ext (Name fileMeta)) "." EmptyString, nil), c).
Proof.
  intros Hstat. rewrite GetTagValue_single by reflexivity.
  unfold resolve.
  change (ParseTagProperties "File.Extension") with ("File", ["Extension"]).
  cbv iota. change (String.eqb "File" "File") with true. cbv iota.
  unfold GetFileTagValue. by rewrite Hstat.
Qed.

Lemma GetTagValue_IndexByCaptureDate fs t exifData file c fileMeta :
  os_Stat fs file = Ok fileMeta ->
  GetTagValue fs t exifData file "File.IndexByCaptureDate" c
    = ((Sprintf_0d 6 (day_count c (Year t) (Month t) (Day t)), nil), c).
Proof.
  intros Hstat. rewrite GetTagValue_single by reflexivity.
  unfold resolve.
  change (ParseTagProperties "File.IndexByCaptureDate")
    with ("File", ["IndexByCaptureDate"]).
  cbv iota. change (String.eqb "File" "File") with true. cbv iota.
  destruct (GetFileTagValue_indices fs t file "File" [] c fileMeta Hstat)
    as (_ & _ & _ & HD).
  by rewrite HD.
Qed.

(** The name rendered in the scenario. *)
Lemma scenario_rendered fs file c fileMeta exifData exifTag timestamp :
  os_Stat fs file = Ok fileMeta ->
  filepath_Ext (Name fileMeta) = ".jpg" ->
  exif_Get exifData "DateTime" = Ok exifTag ->
  tag_StringVal exifTag = Ok "2016:03:04 10:00:00" ->
  time_Parse timestampFormat "2016:03:04 10:00:00" = Ok timestamp ->
  Year timestamp = 2016 -> Month timestamp = 3 -> Day timestamp = 4 ->
  day_count c 2016 3 4 = 2 ->
  rendered fs timestamp exifData file c
    (ExtractFileOutputTags scenario_pattern) scenario_pattern
  = "201603_000002.jpg".
Proof.
  intros Hstat Hext Hget Hval Hparse HY HM HD Hday.
  rewrite scenario_tags. unfold rendered. simpl foldl.
  rewrite (GetTagValue_DateTime _ _ _ _ _ exifTag "2016:03:04 10:00:00" timestamp
             "DateTime.Year" "Year") by done.
  rewrite (GetTagValue_DateTime _ _ _ _ _ exifTag "2016:03:04 10:00:00" timestamp
             "DateTime.Month" "Month") by done.
  rewrite (GetTagValue_IndexByCaptureDate _ _ _ _ _ fileMeta) by done.
  rewrite (GetTagValue_Extension _ _ _ _ _ fileMeta) by done.
  rewrite HY, HM, HD, Hday, Hext. simpl fst.
  change (TimestampProp timestamp ["Year"]) with (strconv_Itoa (Year timestamp)).
  change (TimestampProp timestamp ["Month"]) with (Sprintf_0d 2 (Month timestamp)).
  rewrite HY, HM. reflexivity.
Qed.

End ScenarioFacts.

(** C9: the template {DateTime.Year}{DateTime.Month}_{File.IndexByCaptureDate}.{File.Extension},
    for a .jpg file whose DateTime is 2016:03:04 10:00:00 and which is the
    second file added with that capture date, renders as 201603_000002.jpg:
    the index has six digits, the extension is the one of the file without
    its dot. A dry run prints that name, a run without the flag renames the
    file to it. *)
Theorem scenario_second_of_the_day `{P : Platform} (st : Run) (file : string)
    (fileMeta : FileInfo) (fileContents : File) (exifData : Exif)
    (exifTag : Tag) (timestamp : Time) :
  os_Stat (files_state st) file = Ok fileMeta ->
  filepath_Ext (Name fileMeta) = ".jpg" ->
  os_Open (files_state st) file = Ok fileContents ->
  exif_Decode fileContents = (exifData, nil) ->
  exif_Get exifData "DateTime" = Ok exifTag ->
  tag_StringVal exifTag = Ok "2016:03:04 10:00:00" ->
  time_Parse timestampFormat "2016:03:04 10:00:00" = Ok timestamp ->
  Year timestamp = 2016 -> Month timestamp = 3 -> Day timestamp = 4 ->
  day_count (collector st) 2016 3 4 = 1 ->
  let tags := ExtractFileOutputTags scenario_pattern in
  let c := snd (Add timestamp (collector st)) in
  day_count c 2016 3 4 = 2 /\
  ApplyPattern_file true tags scenario_pattern file st
    = (mkRun c (files_state st)
         (printed st ++ [dry_line file "201603_000002.jpg"]), nil) /\
  ApplyPattern_file false tags scenario_pattern file st
    = (mkRun c (fst (os_Rename (files_state st) file "201603_000002.jpg"))
         (printed st),
       snd (os_Rename (files_state st) file "201603_000002.jpg")).
Proof.
  intros Hstat Hext Hopen Hdecode Hget Hval Hparse HY HM HD Hcount. cbv zeta.
  assert (GetFileCaptureTime (files_state st) file = (timestamp, exifData, nil)) as Hcap.
  { unfold GetFileCaptureTime, GetExifData, capture_tag, parse_timestamp,
      exif_DateTime.
    by rewrite Hopen, Hdecode, Hget, Hval, Hparse. }
  assert (day_count (snd (Add timestamp (collector st))) 2016 3 4 = 2) as Hday.
  { rewrite day_count_Add, decide_True by done. by rewrite Hcount. }
  split; [exact Hday|].
  rewrite !ApplyPattern_file_spec, Hcap. cbv zeta. cbv beta iota delta [nil].
  rewrite (scenario_rendered _ _ _ fileMeta exifData exifTag timestamp) by done.
  split; [done|]. by destruct (os_Rename _ _ _).
Qed.

Lemma scenario_second_of_the_day_witness :
  let tags := ExtractFileOutputTags scenario_pattern in
  let st := fst (ApplyPattern (P := Ref.platform) true sample_fs ["a.jpg"]
                   tags scenario_pattern) in
  day_count (collector st) 2016 3 4 = 1 /\
  printed (fst (ApplyPattern_file (P := Ref.platform) true tags scenario_pattern
                  "b.jpg" st))
  = [dry_line "a.jpg" "201603_000001.jpg"; dry_line "b.jpg" "201603_000002.jpg"].
Proof.
  intros tags st.
  assert (day_count (collector st) 2016 3 4 = 1) as H by reflexivity.
  split; [exact H|]. unfold tags.
  destruct (scenario_second_of_the_day (P := Ref.platform) st "b.jpg"
    (mkFileInfo "b.jpg" 2048 (Ref.utc 2016 3 5 12 0 0))
    (picture sample_exif) (Some sample_exif) (Ok "2016:03:04 10:00:00")
    (Ref.utc 2016 3 4 10 0 0)
    eq_refl eq_refl eq_refl eq_refl eq_refl eq_refl eq_refl eq_refl eq_refl
    eq_refl H) as (_ & Hdry & _).
  rewrite Hdry. reflexivity.
Defined.

(** * Further properties *)

(** ** The collector: buckets and keys *)

Section CollectorMore.

Implicit Types (c : DateIndexCollector) (t : Time) (ts : list Time).

Lemma months_Add t c y :
  default ∅ (ByMonth (snd (Add t c)) !! y) =
  if decide (y = Year t)
  then map_incr (Month t) (default ∅ (ByMonth c !! Year t))
  else default ∅ (ByMonth c !! y).
Proof.
  rewrite Add_unfold. simpl.
  destruct (decide (y = Year t)) as [->|Hy].
  - by rewrite lookup_alter_eq, (lookup_ensure ∅), decide_True.
  - by rewrite lookup_alter_ne, (lookup_ensure ∅), decide_False.
Qed.

Lemma ByMonth_Add_key t c y :
  is_Some (ByMonth (snd (Add t c)) !! y) <-> y = Year t \/ is_Some (ByMonth c !! y).
Proof.
  rewrite Add_unfold. simpl.
  destruct (decide (y = Year t)) as [->|Hy].
  - rewrite lookup_alter_eq, (lookup_ensure ∅), decide_True by done. simpl.
    split; [by left | by eexists].
  - rewrite lookup_alter_ne, (lookup_ensure ∅), decide_False by done. tauto.
Qed.

Lemma ByYear_Add_key t c y :
  is_Some (ByYear (snd (Add t c)) !! y) <-> y = Year t \/ is_Some (ByYear c !! y).
Proof.
  rewrite Add_unfold. simpl. unfold map_incr.
  destruct (decide (y = Year t)) as [->|Hy].
  - rewrite lookup_insert_eq. split; [by left | by eexists].
  - rewrite lookup_insert_ne by done. tauto.
Qed.

(** The months of a year in [ByDay], after an add. *)
Lemma days_Add t c y :
  ByDay (snd (Add t c)) !! y =
  if decide (y = Year t)
  then
    let months := default ∅ (ByDay c !! Year t) in
    Some (alter (map_incr (Day t)) (Month t)
            (if has_key (Month t) months then months
             else <[Month t := ∅]> months))
  else ByDay c !! y.
Proof.
  rewrite Add_unfold. simpl.
  set (byDay := if has_key (Year t) (ByDay c) then ByDay c
                else <[Year t := ∅]> (ByDay c)).
  assert (forall j, byDay !! j =
            if decide (j = Year t) then Some (default ∅ (ByDay c !! Year t))
            else ByDay c !! j) as HbyDay
    by (intros j; apply (lookup_ensure ∅)).
  rewrite (HbyDay (Year t)), decide_True by done. simpl.
  set (months := default ∅ (ByDay c !! Year t)).
  destruct (decide (y = Year t)) as [->|Hy].
  - rewrite lookup_alter_eq.
    destruct (has_key (Month t) months).
    + by rewrite HbyDay, decide_True.
    + by rewrite lookup_alter_eq, HbyDay, decide_True.
  - rewrite lookup_alter_ne by done.
    destruct (has_key (Month t) months).
    + by rewrite HbyDay, decide_False.
    + by rewrite lookup_alter_ne, HbyDay, decide_False.
Qed.

Lemma ByDay_Add_key t c y :
  is_Some (ByDay (snd (Add t c)) !! y) <-> y = Year t \/ is_Some (ByDay c !! y).
Proof.
  rewrite days_Add. destruct (decide (y = Year t)) as [->|Hy].
  - split; [by left | by eexists].
  - tauto.
Qed.

Lemma month_key_Add t c y m :
  is_Some (default ∅ (ByMonth (snd (Add t c)) !! y) !! m) <->
  (y = Year t /\ m = Month t) \/ is_Some (default ∅ (ByMonth c !! y) !! m).
Proof.
  rewrite months_Add. destruct (decide (y = Year t)) as [->|Hy]; [|tauto].
  unfold map_incr. destruct (decide (m = Month t)) as [->|Hm].
  - rewrite lookup_insert_eq. split; [by left | by eexists].
  - rewrite lookup_insert_ne by done. tauto.
Qed.

Lemma day_month_key_Add t c y m :
  is_Some (default ∅ (ByDay (snd (Add t c)) !! y) !! m) <->
  (y = Year t /\ m = Month t) \/ is_Some (default ∅ (ByDay c !! y) !! m).
Proof.
  rewrite days_Add. destruct (decide (y = Year t)) as [->|Hy]; [|tauto].
  cbv zeta. simpl.
  destruct (decide (m = Month t)) as [->|Hm].
  - rewrite lookup_alter_eq, (lookup_ensure ∅), decide_True by done.
    split; [by left | by eexists].
  - rewrite lookup_alter_ne, (lookup_ensure ∅), decide_False by done. tauto.
Qed.

End CollectorMore.

(** X1: the timestamp added last reads, as its index by year, by month and
    by day, one more than the number of timestamps of its year, month and
    day added before it (the first of a bucket reads 1), and in general the
    index by month and by day of any timestamp is the number of timestamps
    added in its month and on its day. *)
Theorem index_is_rank (ts : list Time) (t t' : Time) :
  Z.of_nat (length ts) < GoInt.max_int ->
  let c := AddAll (ts ++ [t]) NewDateIndexCollector in
  fst (GetIndexByYear t c) = in_year (Year t) ts + 1 /\
  fst (GetIndexByMonth t c) = in_month (Year t) (Month t) ts + 1 /\
  fst (GetIndexByDay t c) = in_day (Year t) (Month t) (Day t) ts + 1 /\
  fst (GetIndexByMonth t' c) = in_month (Year t') (Month t') (ts ++ [t]) /\
  fst (GetIndexByDay t' c) = in_day (Year t') (Month t') (Day t') (ts ++ [t]).
Proof.
  intros Hlen c.
  destruct (AddAll_counts (ts ++ [t])) as (_ & HY & HM & HD).
  { rewrite length_app. simpl. lia. }
  fold c in HY, HM, HD.
  rewrite !GetIndexByMonth_read, !GetIndexByDay_read. simpl.
  change (default 0 (ByYear c !! Year t)) with (year_count c (Year t)).
  rewrite HY, !HM, !HD. unfold in_year, in_month, in_day.
  rewrite !count_snoc, !decide_True by done. done.
Qed.

Lemma index_is_rank_witness :
  let t := Ref.utc 2016 1 3 0 0 0 in
  let c := AddAll (test_timestamps ++ [t]) NewDateIndexCollector in
  Z.of_nat (length test_timestamps) < GoInt.max_int /\
  fst (GetIndexByDay t c) = in_day 2016 1 3 test_timestamps + 1.
Proof.
  intros t c.
  assert (Z.of_nat (length test_timestamps) < GoInt.max_int) as H by reflexivity.
  split; [exact H|].
  destruct (index_is_rank test_timestamps t t H) as (_ & _ & HD & _).
  exact HD.
Defined.

(** X2: an add raises Count and the three buckets of its timestamp by one
    (as long as they are below the largest int) and leaves the counter of
    every other year, month and day as it was. *)
Theorem Add_touches_own_buckets (t : Time) (c : DateIndexCollector) (y m d : Z) :
  let c' := snd (Add t c) in
  (0 <= Count c < GoInt.max_int -> Count c' = Count c + 1) /\
  (0 <= year_count c (Year t) < GoInt.max_int ->
   year_count c' (Year t) = year_count c (Year t) + 1) /\
  (0 <= month_count c (Year t) (Month t) < GoInt.max_int ->
   month_count c' (Year t) (Month t) = month_count c (Year t) (Month t) + 1) /\
  (0 <= day_count c (Year t) (Month t) (Day t) < GoInt.max_int ->
   day_count c' (Year t) (Month t) (Day t)
     = day_count c (Year t) (Month t) (Day t) + 1) /\
  (y <> Year t -> year_count c' y = year_count c y) /\
  (~ (y = Year t /\ m = Month t) -> month_count c' y m = month_count c y m) /\
  (~ (y = Year t /\ m = Month t /\ d = Day t) ->
   day_count c' y m d = day_count c y m d).
Proof.
  cbv zeta. repeat split.
  - intros H. by rewrite Count_Add, incr_small.
  - intros H. by rewrite year_count_Add, decide_True, incr_small.
  - intros H. by rewrite month_count_Add, decide_True, incr_small.
  - intros H. by rewrite day_count_Add, decide_True, incr_small.
  - intros H. by rewrite year_count_Add, decide_False.
  - intros H. by rewrite month_count_Add, decide_False.
  - intros H. by rewrite day_count_Add, decide_False.
Qed.

Lemma Add_touches_own_buckets_witness :
  let c := AddAll test_timestamps NewDateIndexCollector in
  let c' := snd (Add (Ref.utc 2016 1 3 0 0 0) c) in
  Count c' = Count c + 1 /\
  day_count c' 2016 1 3 = day_count c 2016 1 3 + 1 /\
  day_count c' 2016 2 2 = day_count c 2016 2 2 /\
  month_count c' 2016 2 = month_count c 2016 2 /\
  year_count c' 2015 = year_count c 2015.
Proof.
  intros c c'.
  destruct (Add_touches_own_buckets (Ref.utc 2016 1 3 0 0 0) c 2015 2 2)
    as (HC & _ & _ & HD & HY & _ & _).
  destruct (Add_touches_own_buckets (Ref.utc 2016 1 3 0 0 0) c 2016 2 2)
    as (_ & _ & _ & _ & _ & HM & HD').
  split; [apply HC; vm_compute; split; [discriminate | reflexivity]|].
  split; [apply HD; vm_compute; split; [discriminate | reflexivity]|].
  split; [apply HD'; vm_compute; intros (_ & _ & ?); discriminate|].
  split; [apply HM; vm_compute; intros (_ & ?); discriminate|].
  apply HY. discriminate.
Defined.

(** X3: in every state reached from a new collector the three maps have
    the same years as keys, and under every year [ByMonth] and [ByDay] have
    the same months; a year or a month is a key exactly when a timestamp of
    it was added. *)
Theorem collector_keys (ts : list Time) (y m : Z) :
  let c := AddAll ts NewDateIndexCollector in
  (is_Some (ByYear c !! y) <-> Exists (fun t => Year t = y) ts) /\
  (is_Some (ByMonth c !! y) <-> Exists (fun t => Year t = y) ts) /\
  (is_Some (ByDay c !! y) <-> Exists (fun t => Year t = y) ts) /\
  (is_Some (default ∅ (ByMonth c !! y) !! m)
     <-> Exists (fun t => Year t = y /\ Month t = m) ts) /\
  (is_Some (default ∅ (ByDay c !! y) !! m)
     <-> Exists (fun t => Year t = y /\ Month t = m) ts).
Proof.
  induction ts as [|t ts IH] using rev_ind.
  - cbn. rewrite !lookup_empty, !Exists_nil.
    repeat split; try tauto; by intros [? ?].
  - cbv zeta in *. rewrite AddAll_snoc.
    destruct IH as (H1 & H2 & H3 & H4 & H5).
    rewrite ByYear_Add_key, ByMonth_Add_key, ByDay_Add_key, month_key_Add,
      day_month_key_Add, H1, H2, H3, H4, H5.
    rewrite !Exists_app, !Exists_cons, !Exists_nil.
    clear. intuition (subst; auto).
Qed.

(** X4: what the collector answers does not depend on the order in which
    the timestamps were added: after the adds of a permutation, Len and the
    three lookups read the same. *)
Theorem lookups_order_independent (ts ts' : list Time) (t : Time) :
  ts ≡ₚ ts' ->
  Z.of_nat (length ts) <= GoInt.max_int ->
  let c := AddAll ts NewDateIndexCollector in
  let c' := AddAll ts' NewDateIndexCollector in
  fst (Len c) = fst (Len c') /\
  fst (GetIndexByYear t c) = fst (GetIndexByYear t c') /\
  fst (GetIndexByMonth t c) = fst (GetIndexByMonth t c') /\
  fst (GetIndexByDay t c) = fst (GetIndexByDay t c').
Proof.
  intros Hperm Hlen c c'.
  assert (Z.of_nat (length ts') <= GoInt.max_int) as Hlen'
    by (by rewrite <- Hperm).
  destruct (AddAll_counts ts Hlen) as (HC & HY & HM & HD).
  destruct (AddAll_counts ts' Hlen') as (HC' & HY' & HM' & HD').
  fold c in HC, HY, HM, HD. fold c' in HC', HY', HM', HD'.
  rewrite !GetIndexByMonth_read, !GetIndexByDay_read. simpl.
  change (default 0 (ByYear c !! Year t)) with (year_count c (Year t)).
  change (default 0 (ByYear c' !! Year t)) with (year_count c' (Year t)).
  rewrite HC, HC', HY, HY', HM, HM', HD, HD'.
  unfold in_year, in_month, in_day. by rewrite !Hperm.
Qed.

Lemma lookups_order_independent_witness :
  let t := Ref.utc 2016 1 3 0 0 0 in
  fst (GetIndexByDay t (AddAll test_timestamps NewDateIndexCollector))
  = fst (GetIndexByDay t (AddAll (reverse test_timestamps) NewDateIndexCollector)).
Proof.
  intros t.
  assert (test_timestamps ≡ₚ reverse test_timestamps) as Hperm
    by (symmetry; apply reverse_Permutation).
  assert (Z.of_nat (length test_timestamps) <= GoInt.max_int) as Hlen
    by (vm_compute; discriminate).
  destruct (lookups_order_independent test_timestamps (reverse test_timestamps)
              t Hperm Hlen) as (_ & _ & _ & HD).
  exact HD.
Defined.

(** ** Tags and their properties *)

Section TagFacts.

Lemma strings_Join_Split (s : string) (sep : ascii) :
  strings_Join (strings_Split s sep) sep = s.
Proof.
  induction s as [|x s IH]; [done|]. simpl.
  pose proof (strings_Split_nonempty s sep) as Hne.
  destruct (Ascii.eqb x sep) eqn:Ex.
  - apply Ascii.eqb_eq in Ex as ->.
    destruct (strings_Split s sep) as [|piece pieces]; [done|].
    simpl in *. by rewrite IH.
  - destruct (strings_Split s sep) as [|piece pieces]; [done|].
    simpl in *. destruct pieces as [|piece' pieces].
    + by rewrite IH.
    + rewrite <- IH. reflexivity.
Qed.

Lemma strings_Split_pieces_free (s : string) (sep : ascii) :
  Forall (free_of sep) (strings_Split s sep).
Proof.
  induction s as [|x s IH]; simpl.
  - by apply Forall_singleton.
  - pose proof (strings_Split_nonempty s sep) as Hne.
    destruct (Ascii.eqb x sep) eqn:Ex.
    + by apply Forall_cons.
    + destruct (strings_Split s sep) as [|piece pieces]; [done|].
      apply Forall_cons in IH as [Hpiece Hpieces].
      apply Forall_cons. split; [|done].
      unfold free_of in *. simpl. by rewrite Ex.
Qed.

Lemma strings_Split_length (s : string) (sep : ascii) :
  free_of sep s <-> strings_Split s sep = [s].
Proof.
  split; [apply strings_Split_free|].
  intros H. pose proof (strings_Split_pieces_free s sep) as HF.
  rewrite H in HF. by apply Forall_inv in HF.
Qed.

End TagFacts.

(** X5: ParseTagProperties splits a tag at its dots and loses nothing: the
    category and the properties, joined with dots again, are the tag; none
    of them has a dot; and a tag without a dot has no property. *)
Theorem ParseTagProperties_round_trip (outputTag : string) :
  let (tag, properties) := ParseTagProperties outputTag in
  strings_Join (tag :: properties) "." = outputTag /\
  Forall (free_of ".") (tag :: properties) /\
  (properties = [] <-> free_of "." outputTag).
Proof.
  unfold ParseTagProperties.
  destruct (strings_Contains outputTag ".") eqn:Hdot.
  - pose proof (strings_Join_Split outputTag ".") as HJ.
    pose proof (strings_Split_pieces_free outputTag ".") as HF.
    pose proof (strings_Split_nonempty outputTag ".") as Hne.
    destruct (strings_Split outputTag ".") as [|part parts]; [done|].
    split; [exact HJ|]. split; [exact HF|].
    unfold free_of. rewrite Hdot. split; [|discriminate].
    intros ->. simpl in HJ. subst part.
    apply Forall_inv in HF. unfold free_of in HF. congruence.
  - split; [done|]. split; [by apply Forall_singleton|]. done.
Qed.

(** ** The capture time *)

(** X6: the capture time is taken from the first of DateTime,
    DateTimeDigitized and DateTimeOriginal that the file has, and from that
    field alone: when its value does not parse the capture time is
    unavailable, even if a later field would parse; a later field is looked
    at only when the earlier ones are missing. *)
Theorem capture_time_first_present `{P : Platform} (fs : FS) (filePath : string)
    (fileContents : File) (exifData : Exif) (exifTag : Tag) (value : string) :
  os_Open fs filePath = Ok fileContents ->
  exif_Decode fileContents = (exifData, nil) ->
  tag_StringVal exifTag = Ok value ->
  (exif_Get exifData "DateTime" = Ok exifTag ->
   GetFileCaptureTime fs filePath
     = (fst (parse_timestamp value), exifData, snd (parse_timestamp value))) /\
  (forall e, exif_Get exifData "DateTime" = Fail e ->
   exif_Get exifData "DateTimeDigitized" = Ok exifTag ->
   GetFileCaptureTime fs filePath
     = (fst (parse_timestamp value), exifData, snd (parse_timestamp value))) /\
  (forall e e', exif_Get exifData "DateTime" = Fail e ->
   exif_Get exifData "DateTimeDigitized" = Fail e' ->
   exif_Get exifData "DateTimeOriginal" = Ok exifTag ->
   GetFileCaptureTime fs filePath
     = (fst (parse_timestamp value), exifData, snd (parse_timestamp value))) /\
  (forall e, time_Parse timestampFormat value = Fail e ->
   parse_timestamp value = (zeroTime, Some e)).
Proof.
  intros Hopen Hdecode Hval.
  unfold GetFileCaptureTime, GetExifData, capture_tag, exif_DateTime,
    exif_DateTimeDigitized, exif_DateTimeOriginal.
  rewrite Hopen, Hdecode.
  split; [|split; [|split]].
  - intros ->. rewrite Hval. by destruct (parse_timestamp value).
  - intros e -> ->. rewrite Hval. by destruct (parse_timestamp value).
  - intros e e' -> -> ->. rewrite Hval. by destruct (parse_timestamp value).
  - intros e He. unfold parse_timestamp. by rewrite He.
Qed.

Lemma capture_time_first_present_witness :
  GetFileCaptureTime (P := Ref.platform) clock_fs "e.jpg"
    = (zeroTime, Some clockless_exif, Some "parsing time: out of range") /\
  fst (fst (GetFileCaptureTime (P := Ref.platform) clock_fs "f.jpg"))
    = Ref.utc 2016 3 4 11 0 0.
Proof.
  split.
  - destruct (capture_time_first_present (P := Ref.platform) clock_fs "e.jpg"
      (picture clockless_exif) (Some clockless_exif)
      (Ok "0000:00:00 00:00:00") "0000:00:00 00:00:00"
      eq_refl eq_refl eq_refl) as (H & _).
    exact (H eq_refl).
  - destruct (capture_time_first_present (P := Ref.platform) clock_fs "f.jpg"
      (picture original_exif) (Some original_exif)
      (Ok "2016:03:04 11:00:00") "2016:03:04 11:00:00"
      eq_refl eq_refl eq_refl) as (_ & _ & H & _).
    by rewrite (H "exif: tag not present" "exif: tag not present"
                  eq_refl eq_refl eq_refl).
Defined.

(** X7: IncrementCaptureIndex hands on what GetFileCaptureTime returns and
    calls Add exactly when the error is nil; with an error the collector is
    left as it is and the timestamp returned is the zero time. *)
Theorem IncrementCaptureIndex_adds_on_success `{P : Platform} (fs : FS)
    (filePath : string) (c : DateIndexCollector) :
  let '(timestamp, exifData, err) := GetFileCaptureTime fs filePath in
  fst (IncrementCaptureIndex fs filePath c) = (timestamp, exifData, err) /\
  (err = nil -> snd (IncrementCaptureIndex fs filePath c) = snd (Add timestamp c)) /\
  (err <> nil ->
   snd (IncrementCaptureIndex fs filePath c) = c /\ timestamp = zeroTime).
Proof.
  destruct (GetFileCaptureTime fs filePath) as [[timestamp exifData] [e|]] eqn:E.
  - rewrite (IncrementCaptureIndex_error fs filePath c e) by (by rewrite E).
    rewrite E. split; [done|]. split; [done|]. intros _. split; [done|].
    pose proof (GetFileCaptureTime_error fs filePath e) as Hz.
    rewrite E in Hz. by apply Hz.
  - rewrite (IncrementCaptureIndex_ok fs filePath c timestamp exifData E).
    split; [done|]. split; [done|]. by intros [].
Qed.

Lemma IncrementCaptureIndex_adds_on_success_witness :
  fst (Len (snd (IncrementCaptureIndex (P := Ref.platform) clock_fs "f.jpg"
                   NewDateIndexCollector))) = 1 /\
  snd (IncrementCaptureIndex (P := Ref.platform) clock_fs "e.jpg"
         NewDateIndexCollector) = NewDateIndexCollector.
Proof.
  pose proof (IncrementCaptureIndex_adds_on_success (P := Ref.platform)
                clock_fs "f.jpg" NewDateIndexCollector) as Hf.
  pose proof (IncrementCaptureIndex_adds_on_success (P := Ref.platform)
                clock_fs "e.jpg" NewDateIndexCollector) as He.
  split.
  - destruct (GetFileCaptureTime (P := Ref.platform) clock_fs "f.jpg")
      as [[timestamp exifData] err] eqn:E.
    assert (err = nil) as Hnil by (by injection E).
    assert (timestamp = Ref.utc 2016 3 4 11 0 0) as Ht by (by injection E).
    destruct Hf as (_ & Hadd & _). rewrite (Hadd Hnil), Ht. reflexivity.
  - destruct (GetFileCaptureTime (P := Ref.platform) clock_fs "e.jpg")
      as [[timestamp exifData] err] eqn:E.
    assert (err <> nil) as Herr by (injection E as _ _ <-; discriminate).
    destruct He as (_ & _ & Hkeep). exact (proj1 (Hkeep Herr)).
Defined.

(** ** Tags with one alternative *)

Section OneAlternative.

Context {P : Platform}.

Lemma strings_Split_Join (parts : list string) (sep : ascii) :
  parts <> [] -> Forall (free_of sep) parts ->
  strings_Split (strings_Join parts sep) sep = parts.
Proof.
  induction parts as [|part rest IH]; [done|]. intros _ HF.
  apply Forall_cons in HF as [Hpart Hrest].
  destruct rest as [|part' rest].
  - simpl. by apply strings_Split_free.
  - change (strings_Join (part :: part' :: rest) sep)
      with (part +:+ String sep (strings_Join (part' :: rest) sep)).
    rewrite strings_Split_app, IH, (strings_Split_free part) by done. done.
Qed.

Lemma strings_Join_free (parts : list string) (sep c : ascii) :
  sep <> c -> Forall (free_of c) parts -> free_of c (strings_Join parts sep).
Proof.
  intros Hsep. induction parts as [|part rest IH]; [done|]. intros HF.
  apply Forall_cons in HF as [Hpart Hrest].
  destruct rest as [|part' rest]; [done|].
  change (strings_Join (part :: part' :: rest) sep)
    with (part +:+ String sep (strings_Join (part' :: rest) sep)).
  specialize (IH Hrest). unfold free_of in *.
  rewrite strings_Contains_app, Hpart.
  change (strings_Contains (String sep (strings_Join (part' :: rest) sep)) c)
    with (Ascii.eqb sep c || strings_Contains (strings_Join (part' :: rest) sep) c).
  rewrite IH. apply Ascii.eqb_neq in Hsep. by rewrite Hsep.
Qed.

Lemma strings_Contains_Join (part part' : string) (rest : list string) (sep : ascii) :
  strings_Contains (strings_Join (part :: part' :: rest) sep) sep = true.
Proof.
  change (strings_Join (part :: part' :: rest) sep)
    with (part +:+ String sep (strings_Join (part' :: rest) sep)).
  rewrite strings_Contains_app.
  change (strings_Contains (String sep (strings_Join (part' :: rest) sep)) sep)
    with (Ascii.eqb sep sep || strings_Contains (strings_Join (part' :: rest) sep) sep).
  rewrite Ascii.eqb_refl. by rewrite orb_true_r.
Qed.

Lemma ParseTagProperties_Join (tag : string) (properties : list string) :
  Forall (free_of ".") (tag :: properties) ->
  ParseTagProperties (strings_Join (tag :: properties) ".") = (tag, properties).
Proof.
  intros HF. unfold ParseTagProperties.
  destruct properties as [|property rest].
  - simpl. apply Forall_inv in HF. unfold free_of in HF. by rewrite HF.
  - rewrite strings_Contains_Join, strings_Split_Join by done. done.
Qed.

Lemma GetTagValue_Join fs t exifData file tag properties c :
  Forall plain_name (tag :: properties) ->
  GetTagValue fs t exifData file (strings_Join (tag :: properties) ".") c =
  let r := if String.eqb tag "File"
           then fst (GetFileTagValue fs t file tag properties c)
           else GetExifTagValue exifData tag properties in
  ((match snd r with None => fst r | Some _ => EmptyString end, nil), c).
Proof.
  intros HF.
  assert (Forall (free_of ".") (tag :: properties)) as Hdot
    by (eapply Forall_impl; [exact HF | by intros s [? ?]]).
  assert (Forall (free_of "|") (tag :: properties)) as Hbar
    by (eapply Forall_impl; [exact HF | by intros s [? ?]]).
  rewrite GetTagValue_single
    by (apply strings_Split_free, strings_Join_free; [discriminate | done]).
  unfold resolve. rewrite ParseTagProperties_Join by done. cbv zeta.
  destruct (String.eqb tag "File").
  - by destruct (fst (GetFileTagValue fs t file tag properties c)) as [v [e|]].
  - simpl. by destruct (GetExifTagValue exifData tag properties) as [v [e|]].
Qed.

End OneAlternative.

(** X8: a tag written as a category and properties joined by dots, none of
    which has a dot or a bar, is parsed back into that category and those
    properties, and resolves as the category decides: File through
    GetFileTagValue, any other category through GetExifTagValue; a failure
    gives the empty string, and the error of GetTagValue is nil. *)
Theorem GetTagValue_one_alternative `{P : Platform} (fs : FS) (t : Time)
    (exifData : Exif) (file tag : string) (properties : list string)
    (c : DateIndexCollector) :
  Forall plain_name (tag :: properties) ->
  ParseTagProperties (strings_Join (tag :: properties) ".") = (tag, properties) /\
  GetTagValue fs t exifData file (strings_Join (tag :: properties) ".") c =
  let r := if String.eqb tag "File"
           then fst (GetFileTagValue fs t file tag properties c)
           else GetExifTagValue exifData tag properties in
  ((match snd r with None => fst r | Some _ => EmptyString end, nil), c).
Proof.
  intros HF. split; [|by apply GetTagValue_Join].
  apply ParseTagProperties_Join.
  eapply Forall_impl; [exact HF | by intros s [? ?]].
Qed.

Lemma GetTagValue_one_alternative_witness :
  GetTagValue (P := Ref.platform) sample_fs zeroTime (Some sample_exif) "b.jpg"
    "File.ModTime.Year" NewDateIndexCollector
  = (("2016", nil), NewDateIndexCollector).
Proof.
  refine (proj2 (GetTagValue_one_alternative (P := Ref.platform) sample_fs zeroTime
    (Some sample_exif) "b.jpg" "File" ["ModTime"; "Year"] NewDateIndexCollector _)).
  repeat (apply Forall_cons; split; [split; reflexivity|]). apply Forall_nil_2.
Defined.

(** X9: once the file is stat'ed a File tag never fails. Without a
    property, or with a property that is none of the known ones, its value
    is the empty string; Name and Size are the attributes of the file, and
    ModTime is formatted by TimestampProp with the property that follows
    it, or with the empty name (the full timestamp) when none follows.
    Properties after these are ignored. *)
Theorem File_tag_values `{P : Platform} (fs : FS) (t : Time) (file tag : string)
    (fileMeta : FileInfo) (c : DateIndexCollector)
    (property : string) (more : list string) :
  os_Stat fs file = Ok fileMeta ->
  snd (fst (GetFileTagValue fs t file tag (property :: more) c)) = nil /\
  GetFileTagValue fs t file tag [] c = ((EmptyString, nil), c) /\
  (known_file_property property = false ->
   GetFileTagValue fs t file tag (property :: more) c = ((EmptyString, nil), c)) /\
  GetFileTagValue fs t file tag ("Name" :: more) c = ((Name fileMeta, nil), c) /\
  GetFileTagValue fs t file tag ("Size" :: more) c
    = ((strconv_Itoa (Size fileMeta), nil), c) /\
  GetFileTagValue fs t file tag ("ModTime" :: property :: more) c
    = ((TimestampProp (ModTime fileMeta) [property], nil), c) /\
  GetFileTagValue fs t file tag ["ModTime"] c
    = ((Format_RFC3339 (ModTime fileMeta), nil), c).
Proof.
  intros Hstat. unfold GetFileTagValue. rewrite Hstat.
  split; [|split; [done|split; [|by repeat split]]].
  - repeat (match goal with |- context [if ?b then _ else _] => destruct b end);
      done.
  - unfold known_file_property. simpl. intros H.
    repeat (apply orb_false_iff in H as [?E H]).
    unfold FileProp.
    repeat match goal with E : String.eqb property _ = false |- _ =>
      rewrite E; clear E end.
    reflexivity.
Qed.

Lemma File_tag_values_witness :
  GetFileTagValue (P := Ref.platform) sample_fs zeroTime "b.jpg" "File"
    ["Owner"; "Name"] NewDateIndexCollector
  = ((EmptyString, nil), NewDateIndexCollector) /\
  GetFileTagValue (P := Ref.platform) sample_fs zeroTime "b.jpg" "File"
    ["Size"] NewDateIndexCollector
  = (("2048", nil), NewDateIndexCollector).
Proof.
  destruct (File_tag_values (P := Ref.platform) sample_fs zeroTime "b.jpg" "File"
    (mkFileInfo "b.jpg" 2048 (Ref.utc 2016 3 5 12 0 0)) NewDateIndexCollector
    "Owner" ["Name"] eq_refl) as (_ & _ & Hunknown & _).
  destruct (File_tag_values (P := Ref.platform) sample_fs zeroTime "b.jpg" "File"
    (mkFileInfo "b.jpg" 2048 (Ref.utc 2016 3 5 12 0 0)) NewDateIndexCollector
    "Owner" [] eq_refl) as (_ & _ & _ & _ & Hsize & _).
  split; [exact (Hunknown eq_refl) | exact Hsize].
Defined.

(** X10: GetExifTagValue succeeds exactly when the field is present, has a
    string value and, for a timestamp field, that value parses; a timestamp
    field whose value does not parse is an error even when no property is
    asked for. For a field that is not a timestamp field the properties are
    ignored and the value is the string of the field as it is. *)
Theorem GetExifTagValue_errors `{P : Platform} (exifData : Exif) (tag : string)
    (properties : list string) :
  (snd (GetExifTagValue exifData tag properties) = nil <->
   exists exifTag value,
     exif_Get exifData tag = Ok exifTag /\
     tag_StringVal exifTag = Ok value /\
     (timestampFields tag = true ->
      exists timestamp, time_Parse timestampFormat value = Ok timestamp)) /\
  (snd (GetExifTagValue exifData tag properties) <> nil ->
   fst (GetExifTagValue exifData tag properties) = EmptyString) /\
  (timestampFields tag = false ->
   GetExifTagValue exifData tag properties = GetExifTagValue exifData tag [] /\
   forall exifTag value,
     exif_Get exifData tag = Ok exifTag -> tag_StringVal exifTag = Ok value ->
     GetExifTagValue exifData tag properties = (value, nil)).
Proof.
  unfold GetExifTagValue. split; [|split].
  - destruct (exif_Get exifData tag) as [exifTag|e].
    2:{ split; [done|]. by intros (? & ? & ? & _). }
    destruct (tag_StringVal exifTag) as [value|e] eqn:Hval.
    2:{ split; [done|]. intros (exifTag' & value' & Hget & Hval' & _).
        injection Hget as <-. congruence. }
    destruct (timestampFields tag).
    + destruct (time_Parse timestampFormat value) as [timestamp|e] eqn:Htime.
      * split; [|by destruct properties].
        intros _. exists exifTag, value. split; [done|]. split; [done|].
        intros _. by exists timestamp.
      * split; [done|]. intros (exifTag' & value' & Hget & Hval' & Hp).
        injection Hget as <-. rewrite Hval in Hval'. injection Hval' as <-.
        destruct (Hp eq_refl) as [? ?]. congruence.
    + split; [|done]. intros _. exists exifTag, value. by repeat split.
  - destruct (exif_Get exifData tag) as [exifTag|e]; [|done].
    destruct (tag_StringVal exifTag) as [value|e]; [|done].
    destruct (timestampFields tag); [|done].
    destruct (time_Parse timestampFormat value); [|done].
    by destruct properties.
  - intros ->. split.
    + destruct (exif_Get exifData tag) as [exifTag|e]; [|done].
      by destruct (tag_StringVal exifTag).
    + by intros exifTag value -> ->.
Qed.

Lemma GetExifTagValue_errors_witness :
  GetExifTagValue (P := Ref.platform) (Some sample_exif) "Make" ["Year"]
    = ("Canon", nil) /\
  snd (GetExifTagValue (P := Ref.platform) (Some clockless_exif) "DateTime" [])
    <> nil.
Proof.
  destruct (GetExifTagValue_errors (P := Ref.platform) (Some sample_exif) "Make"
              ["Year"]) as (_ & _ & Hplain).
  destruct (GetExifTagValue_errors (P := Ref.platform) (Some clockless_exif)
              "DateTime" []) as (Hiff & _).
  split.
  - exact (proj2 (Hplain eq_refl) (Ok "Canon") "Canon" eq_refl eq_refl).
  - intros Hnil. apply Hiff in Hnil as (exifTag & value & Hget & Hval & Hparse).
    injection Hget as <-. injection Hval as <-.
    destruct (Hparse eq_refl) as [timestamp Htime]. discriminate Htime.
Defined.

(** ** The extension of a file *)

Section ExtensionFacts.

Lemma get_free (c x : ascii) (s : string) (j : nat) :
  free_of c s -> String.get j s = Some x -> Ascii.eqb x c = false.
Proof.
  unfold free_of. revert j. induction s as [|y s IH]; intros j; simpl; [done|].
  intros H. apply orb_false_iff in H as [Hy Hs].
  destruct j as [|j]; [by intros [= <-] | by apply IH].
Qed.

Lemma get_append (a b : string) (k : nat) :
  String.get (String.length a + k) (a +:+ b) = String.get k b.
Proof. induction a as [|x a IH]; [done|]. rewrite append_cons. simpl. apply IH. Qed.

Lemma substring_all (s : string) : String.substring 0 (String.length s) s = s.
Proof. induction s as [|x s IH]; [done|]. simpl. by rewrite IH. Qed.

Lemma substring_append (a b : string) (n : nat) :
  String.substring (String.length a) n (a +:+ b) = String.substring 0 n b.
Proof. induction a as [|x a IH]; [done|]. rewrite append_cons. simpl. apply IH. Qed.

Lemma Ext_loop_free (path : string) (i : nat) :
  free_of "." path -> Ext_loop path i = EmptyString.
Proof.
  intros Hfree. induction i as [|j IH]; [done|]. simpl.
  destruct (String.get j path) as [c|] eqn:Hget; [|done].
  rewrite (get_free "." c path j Hfree Hget).
  by destruct (Ascii.eqb c "/").
Qed.

(** The loop from the end of [stem.ext] down to the dot. *)
Lemma Ext_loop_suffix (stem ext : string) (k : nat) :
  free_of "." ext -> free_of "/" ext -> (k <= String.length ext)%nat ->
  Ext_loop (stem +:+ String "." ext) (String.length stem + 1 + k)
  = String "." ext.
Proof.
  intros Hdot Hsep. induction k as [|k IH]; intros Hk.
  - replace (String.length stem + 1 + 0)%nat with (S (String.length stem)) by lia.
    simpl.
    replace (String.length stem) with (String.length stem + 0)%nat at 1 by lia.
    rewrite get_append. simpl.
    rewrite length_append. simpl.
    replace (String.length stem + S (String.length ext) - String.length stem)%nat
      with (S (String.length ext)) by lia.
    rewrite substring_append. simpl. by rewrite substring_all.
  - replace (String.length stem + 1 + S k)%nat
      with (S (String.length stem + S k)) by lia.
    simpl. rewrite get_append. simpl.
    destruct (String.get k ext) as [c|] eqn:Hget.
    + rewrite (get_free "/" c ext k Hsep Hget), (get_free "." c ext k Hdot Hget).
      replace (String.length stem + S k)%nat with (String.length stem + 1 + k)%nat
        by lia.
      apply IH. lia.
    + exfalso. clear -Hget Hk. revert k Hget Hk.
      induction ext as [|x ext IHe]; intros k Hget Hk; simpl in *; [lia|].
      destruct k as [|k]; [done|]. apply (IHe k); [done | lia].
Qed.

Lemma filepath_Ext_suffix (stem ext : string) :
  free_of "." ext -> free_of "/" ext ->
  filepath_Ext (stem +:+ String "." ext) = String "." ext.
Proof.
  intros Hdot Hsep. unfold filepath_Ext.
  rewrite length_append. simpl.
  replace (String.length stem + S (String.length ext))%nat
    with (String.length stem + 1 + String.length ext)%nat by lia.
  by apply Ext_loop_suffix.
Qed.

(** Replacing the dots by nothing. *)
Lemma Replace_dot_cons (c : ascii) (s : string) :
  Replace_from "." EmptyString 0 (String c s) =
  if Ascii.eqb c "." then Replace_from "." EmptyString 0 s
  else String c (Replace_from "." EmptyString 0 s).
Proof.
  cbn [Replace_from String.prefix String.length Nat.sub].
  destruct (Ascii.ascii_dec "." c) as [<-|Hc].
  - assert (String.prefix EmptyString s = true) as -> by (by destruct s).
    reflexivity.
  - destruct (Ascii.eqb c ".") eqn:E; [|reflexivity].
    apply Ascii.eqb_eq in E. congruence.
Qed.

Lemma Replace_dots_free (s : string) : free_of "." (strings_Replace s "." EmptyString).
Proof.
  unfold strings_Replace, free_of. induction s as [|c s IH]; [done|].
  rewrite Replace_dot_cons. destruct (Ascii.eqb c ".") eqn:E; [done|].
  simpl. by rewrite E.
Qed.

Lemma Replace_dots_id (s : string) :
  free_of "." s -> strings_Replace s "." EmptyString = s.
Proof.
  unfold strings_Replace, free_of. induction s as [|c s IH]; [done|].
  simpl strings_Contains. intros H. apply orb_false_iff in H as [Hc Hs].
  rewrite Replace_dot_cons, Hc. by rewrite IH.
Qed.

End ExtensionFacts.

(** X11: the Extension of a file never has a dot; it is empty for a name
    without a dot, and for a name that ends in a dot and an extension
    (without a dot or a separator) it is that extension. *)
Theorem Extension_of_name `{P : Platform} (fs : FS) (t : Time) (file tag : string)
    (fileMeta : FileInfo) (c : DateIndexCollector) (more : list string)
    (stem ext : string) :
  os_Stat fs file = Ok fileMeta ->
  (exists value,
     GetFileTagValue fs t file tag ("Extension" :: more) c = ((value, nil), c) /\
     free_of "." value) /\
  (free_of "." (Name fileMeta) ->
   GetFileTagValue fs t file tag ("Extension" :: more) c = ((EmptyString, nil), c)) /\
  (Name fileMeta = stem +:+ "." +:+ ext -> free_of "." ext -> free_of "/" ext ->
   GetFileTagValue fs t file tag ("Extension" :: more) c = ((ext, nil), c)).
Proof.
  intros Hstat. unfold GetFileTagValue. rewrite Hstat. simpl.
  split; [|split].
  - eexists. split; [reflexivity | apply Replace_dots_free].
  - intros Hfree. unfold filepath_Ext. by rewrite Ext_loop_free.
  - intros -> Hdot Hsep.
    change ("." +:+ ext) with (String "." ext).
    rewrite filepath_Ext_suffix by done.
    unfold strings_Replace, ret. rewrite Replace_dot_cons.
    change (Ascii.eqb "." ".") with true. cbv iota.
    fold (strings_Replace ext "." EmptyString). by rewrite Replace_dots_id.
Qed.

Lemma Extension_of_name_witness :
  GetFileTagValue (P := Ref.platform) sample_fs zeroTime "b.jpg" "File"
    ["Extension"] NewDateIndexCollector
  = (("jpg", nil), NewDateIndexCollector).
Proof.
  destruct (Extension_of_name (P := Ref.platform) sample_fs zeroTime "b.jpg" "File"
    (mkFileInfo "b.jpg" 2048 (Ref.utc 2016 3 5 12 0 0)) NewDateIndexCollector []
    "b" "jpg" eq_refl) as (_ & _ & H).
  exact (H eq_refl eq_refl eq_refl).
Defined.

(** ** Substitution in a template *)

Section SubstitutionFacts.

Lemma prefix_nil (s : string) : String.prefix EmptyString s = true.
Proof. by destruct s. Qed.

Lemma prefix_cons (a b : ascii) (s1 s2 : string) :
  String.prefix (String a s1) (String b s2)
  = if Ascii.eqb a b then String.prefix s1 s2 else false.
Proof.
  cbn [String.prefix]. destruct (Ascii.ascii_dec a b) as [->|Hne].
  - by rewrite Ascii.eqb_refl.
  - apply Ascii.eqb_neq in Hne. by rewrite Hne.
Qed.

Lemma prefix_append (a s : string) : String.prefix a (a +:+ s) = true.
Proof.
  induction a as [|x a IH]; [apply prefix_nil|].
  by rewrite append_cons, prefix_cons, Ascii.eqb_refl.
Qed.

Lemma Replace_from_cons (old new : string) (c : ascii) (s : string) :
  Replace_from old new 0 (String c s) =
  if String.prefix old (String c s)
  then new +:+ Replace_from old new (String.length old - 1) s
  else String c (Replace_from old new 0 s).
Proof. reflexivity. Qed.

(** The bytes of a matched instance are passed over. *)
Lemma Replace_from_skip (old new a s : string) :
  Replace_from old new (String.length a) (a +:+ s) = Replace_from old new 0 s.
Proof. induction a as [|x a IH]; [by destruct s|]. rewrite append_cons. apply IH. Qed.

(** Text without an opening brace is copied. *)
Lemma Replace_from_text (o new text s : string) :
  free_of "{" text ->
  Replace_from (String "{" o) new 0 (text +:+ s)
  = text +:+ Replace_from (String "{" o) new 0 s.
Proof.
  unfold free_of. induction text as [|c text IH]; [done|]. simpl strings_Contains.
  intros H. apply orb_false_iff in H as [Hc Htext].
  rewrite !append_cons, Replace_from_cons.
  assert (String.prefix (String "{" o) (String c (text +:+ s)) = false) as ->.
  { rewrite prefix_cons. rewrite Ascii.eqb_sym in Hc. by rewrite Hc. }
  by rewrite IH.
Qed.

Lemma Replace_from_match (o new s : string) :
  Replace_from (String "{" o) new 0 (String "{" o +:+ s)
  = new +:+ Replace_from (String "{" o) new 0 s.
Proof.
  rewrite append_cons, Replace_from_cons.
  rewrite <- (append_cons "{" o s), prefix_append.
  replace (String.length (String "{" o) - 1)%nat with (String.length o)
    by (simpl; lia).
  by rewrite Replace_from_skip.
Qed.

(** A tag in braces is no instance of another tag in braces. *)
Lemma prefix_other_tag (tag name s : string) :
  free_of "}" tag -> free_of "}" name -> name <> tag ->
  String.prefix (tag +:+ "}") (name +:+ String "}" s) = false.
Proof.
  unfold free_of. revert name.
  induction tag as [|a tag IH]; intros name Htag Hname Hne.
  - destruct name as [|x name]; [done|].
    simpl in Hname. apply orb_false_iff in Hname as [Hx _].
    rewrite append_cons.
    change (EmptyString +:+ "}") with (String "}" EmptyString).
    rewrite prefix_cons. rewrite Ascii.eqb_sym in Hx. by rewrite Hx.
  - simpl in Htag. apply orb_false_iff in Htag as [Ha Htag].
    rewrite append_cons.
    destruct name as [|x name].
    + change (EmptyString +:+ String "}" s) with (String "}" s).
      by rewrite prefix_cons, Ha.
    + simpl in Hname. apply orb_false_iff in Hname as [Hx Hname].
      rewrite append_cons, prefix_cons.
      destruct (Ascii.eqb a x) eqn:Eax; [|done].
      apply Ascii.eqb_eq in Eax as ->.
      apply IH; [done | done | congruence].
Qed.

Lemma Replace_from_other_tag (tag new name s : string) :
  free_of "}" tag -> free_of "{" name -> free_of "}" name -> name <> tag ->
  Replace_from ("{" +:+ tag +:+ "}") new 0 (("{" +:+ name +:+ "}") +:+ s)
  = ("{" +:+ name +:+ "}") +:+ Replace_from ("{" +:+ tag +:+ "}") new 0 s.
Proof.
  intros Htag Hopen Hclose Hne.
  change ("{" +:+ tag +:+ "}") with (String "{" (tag +:+ "}")).
  change ("{" +:+ name +:+ "}") with (String "{" (name +:+ "}")).
  rewrite !append_cons, Replace_from_cons.
  assert (String.prefix (String "{" (tag +:+ "}")) (String "{" ((name +:+ "}") +:+ s))
          = false) as ->.
  { rewrite prefix_cons, Ascii.eqb_refl.
    rewrite append_assoc. by apply prefix_other_tag. }
  rewrite Replace_from_text; [done|].
  unfold free_of in *. rewrite strings_Contains_app, Hopen. reflexivity.
Qed.

Lemma filled_nil value pieces rest : filled value [] pieces rest = template pieces rest.
Proof.
  induction pieces as [|[text name] pieces IH]; [done|]. simpl.
  rewrite IH. by rewrite !append_assoc.
Qed.

Lemma filled_all value resolved pieces rest :
  Forall (fun p => snd p ∈ resolved) pieces ->
  filled value resolved pieces rest = substituted value pieces rest.
Proof.
  induction pieces as [|[text name] pieces IH]; [done|]. intros HF.
  apply Forall_cons in HF as [Hname HF]. simpl in *.
  by rewrite bool_decide_eq_true_2, IH.
Qed.

(** One substitution in a template of which some tags have their values
    already. *)
Lemma Replace_filled value resolved tag new pieces rest :
  plain_pieces pieces -> free_of "{" rest -> free_of "}" tag ->
  Forall (fun p => snd p ∈ resolved -> free_of "{" (value (snd p))) pieces ->
  value tag = new ->
  ReplaceTagInPattern (filled value resolved pieces rest) tag new
  = filled value (tag :: resolved) pieces rest.
Proof.
  intros Hplain Hrest Htag Hvalues Hnew.
  unfold ReplaceTagInPattern, strings_Replace.
  change ("{" +:+ tag +:+ "}") with (String "{" (tag +:+ "}")).
  induction pieces as [|[text name] pieces IH].
  - simpl. rewrite <- (append_nil_r rest) at 1.
    rewrite Replace_from_text by done. simpl. apply append_nil_r.
  - apply Forall_cons in Hplain as [(Htext & Hopen & Hclose) Hplain].
    apply Forall_cons in Hvalues as [Hvalue Hvalues]. simpl in *.
    specialize (IH Hplain Hvalues).
    rewrite Replace_from_text by done. f_equal.
    destruct (decide (name ∈ resolved)) as [Hin|Hout].
    + rewrite bool_decide_eq_true_2 by done.
      rewrite bool_decide_eq_true_2 by (apply elem_of_cons; by right).
      rewrite Replace_from_text by auto. by rewrite IH.
    + rewrite (bool_decide_eq_false_2 (name ∈ resolved)) by done.
      destruct (decide (name = tag)) as [->|Hne].
      * rewrite bool_decide_eq_true_2 by (apply elem_of_cons; by left).
        change ("{" +:+ tag +:+ "}") with (String "{" (tag +:+ "}")).
        rewrite Replace_from_match, IH. by rewrite Hnew.
      * rewrite bool_decide_eq_false_2
          by (intros [?|?]%elem_of_cons; congruence).
        change (String "{" (tag +:+ "}")) with ("{" +:+ tag +:+ "}").
        rewrite Replace_from_other_tag by done.
        change ("{" +:+ tag +:+ "}") with (String "{" (tag +:+ "}")).
        by rewrite IH.
Qed.

End SubstitutionFacts.

Section RenderTemplate.

Lemma filled_unused value resolved pieces rest :
  Forall (fun p => snd p ∉ resolved) pieces ->
  filled value resolved pieces rest = template pieces rest.
Proof.
  induction pieces as [|[text name] pieces IH]; [done|]. intros HF.
  apply Forall_cons in HF as [Hname HF]. simpl in *.
  rewrite bool_decide_eq_false_2, IH by done. by rewrite !append_assoc.
Qed.

(** The substitutions of a list of tags, one after the other. *)
Lemma foldl_Replace_filled (value : string -> string) tags resolved pieces rest :
  plain_pieces pieces -> free_of "{" rest ->
  Forall (free_of "}") tags ->
  Forall (fun p => free_of "{" (value (snd p))) pieces ->
  foldl (fun outputFilename tag =>
           ReplaceTagInPattern outputFilename tag (value tag))
        (filled value resolved pieces rest) tags
  = filled value (reverse tags ++ resolved) pieces rest.
Proof.
  intros Hplain Hrest Htags Hvalues. revert resolved.
  induction tags as [|tag tags IH]; intros resolved; [done|].
  apply Forall_cons in Htags as [Htag Htags]. simpl.
  rewrite (Replace_filled value resolved tag (value tag)); try done.
  - rewrite IH by done. by rewrite reverse_cons, <- app_assoc.
  - eapply Forall_impl; [exact Hvalues | auto].
Qed.

End RenderTemplate.

(** X12: in a template whose tag names have no brace, ReplaceTagInPattern
    puts the value in the place of every occurrence of the tag in braces
    and leaves the text and the other tags as they are; a template in which
    the tag does not occur is left unchanged. *)
Theorem ReplaceTagInPattern_template (pieces : list (string * string))
    (rest tag value : string) :
  plain_pieces pieces -> free_of "{" rest -> free_of "}" tag ->
  ReplaceTagInPattern (template pieces rest) tag value
    = filled (fun _ => value) [tag] pieces rest /\
  (Forall (fun p => snd p <> tag) pieces ->
   ReplaceTagInPattern (template pieces rest) tag value = template pieces rest).
Proof.
  intros Hplain Hrest Htag.
  assert (ReplaceTagInPattern (template pieces rest) tag value
          = filled (fun _ => value) [tag] pieces rest) as E.
  { rewrite <- (filled_nil (fun _ => value)).
    apply Replace_filled; try done.
    apply Forall_forall. intros p _ Hin. by apply elem_of_nil in Hin. }
  split; [exact E|].
  intros Hother. rewrite E. apply filled_unused.
  eapply Forall_impl; [exact Hother|]. simpl.
  intros p Hp [?|Hin]%elem_of_cons; [done | by apply elem_of_nil in Hin].
Qed.

Lemma ReplaceTagInPattern_template_witness :
  ReplaceTagInPattern "{foo}_{bar}_{foo}" "foo" "123" = "123_{bar}_123" /\
  ReplaceTagInPattern "{foo}_{bar}_{foo}" "baz" "123" = "{foo}_{bar}_{foo}".
Proof.
  assert (plain_pieces [(EmptyString, "foo"); ("_", "bar"); ("_", "foo")]) as Hplain.
  { repeat (apply Forall_cons; split; [by repeat split|]). apply Forall_nil_2. }
  split.
  - exact (proj1 (ReplaceTagInPattern_template
      [(EmptyString, "foo"); ("_", "bar"); ("_", "foo")] EmptyString "foo" "123"
      Hplain eq_refl eq_refl)).
  - refine (proj2 (ReplaceTagInPattern_template
      [(EmptyString, "foo"); ("_", "bar"); ("_", "foo")] EmptyString "baz" "123"
      Hplain eq_refl eq_refl) _).
    repeat (apply Forall_cons; split; [discriminate|]). apply Forall_nil_2.
Defined.

(** X13: for a template whose tag names have no brace, the tags that
    ExtractFileOutputTags finds and the substitutions of ApplyPattern fit
    together: when no value has an opening brace, the name rendered for a
    file is the template with every tag replaced by the value GetTagValue
    gives it, and no tag in braces is left. *)
Theorem rendered_template `{P : Platform} (fs : FS) (t : Time) (exifData : Exif)
    (file : string) (c : DateIndexCollector) (pieces : list (string * string))
    (rest : string) :
  let value := fun tag => fst (fst (GetTagValue fs t exifData file tag c)) in
  plain_pieces pieces -> free_of "{" rest ->
  Forall (fun p => free_of "{" (value (snd p))) pieces ->
  rendered fs t exifData file c
    (ExtractFileOutputTags (template pieces rest)) (template pieces rest)
  = substituted value pieces rest.
Proof.
  intros value Hplain Hrest Hvalues.
  assert (ExtractFileOutputTags (template pieces rest) = map snd pieces) as ->.
  { unfold ExtractFileOutputTags.
    destruct (scan_template [] EmptyString pieces rest) as [buf ->].
    - eapply Forall_impl; [exact Hplain|]. simpl. tauto.
    - by rewrite scan_outside. }
  unfold rendered. fold value.
  rewrite <- (filled_nil value).
  rewrite foldl_Replace_filled; try done.
  - apply filled_all. apply Forall_forall. intros p Hp.
    apply elem_of_app. left. apply elem_of_reverse, list_elem_of_fmap.
    by exists p.
  - apply Forall_fmap. eapply Forall_impl; [exact Hplain|]. simpl. tauto.
Qed.

Lemma rendered_template_witness :
  let st := fst (ApplyPattern (P := Ref.platform) true sample_fs ["a.jpg"; "b.jpg"]
                   (ExtractFileOutputTags scenario_pattern) scenario_pattern) in
  rendered (P := Ref.platform) sample_fs (Ref.utc 2016 3 4 10 0 0)
    (Some sample_exif) "b.jpg" (collector st)
    (ExtractFileOutputTags scenario_pattern) scenario_pattern
  = "201603_000002.jpg".
Proof.
  intros st.
  pose proof (rendered_template (P := Ref.platform) sample_fs
    (Ref.utc 2016 3 4 10 0 0) (Some sample_exif) "b.jpg" (collector st)
    [(EmptyString, "DateTime.Year"); (EmptyString, "DateTime.Month");
     ("_", "File.IndexByCaptureDate"); (".", "File.Extension")] EmptyString) as H.
  cbv zeta in H.
  change scenario_pattern with
    (template [(EmptyString, "DateTime.Year"); (EmptyString, "DateTime.Month");
               ("_", "File.IndexByCaptureDate"); (".", "File.Extension")]
       EmptyString).
  rewrite H.
  - reflexivity.
  - repeat (apply Forall_cons; split; [by repeat split|]). apply Forall_nil_2.
  - reflexivity.
  - repeat (apply Forall_cons; split; [reflexivity|]). apply Forall_nil_2.
Defined.

(** ** A whole batch *)

Section BatchFacts.

Context {P : Platform}.

Implicit Types (st : Run) (c : DateIndexCollector).

Lemma AddAll_app ts ts' c : AddAll (ts ++ ts') c = AddAll ts' (AddAll ts c).
Proof. unfold AddAll. by rewrite foldl_app. Qed.

Lemma capture_times_app fs files files' :
  capture_times fs (files ++ files') = capture_times fs files ++ capture_times fs files'.
Proof. unfold capture_times. apply omap_app. Qed.

(** The collector after the step of one file. *)
Lemma step_collector dryRun fileTags pattern file st :
  collector (fst (ApplyPattern_file dryRun fileTags pattern file st))
  = AddAll (capture_times (files_state st) [file]) (collector st).
Proof.
  rewrite ApplyPattern_file_spec. unfold capture_times. simpl.
  destruct (GetFileCaptureTime (files_state st) file) as [[t exifData] [e|]];
    cbv zeta; destruct dryRun; simpl; try done;
    by destruct (os_Rename _ _ _).
Qed.

Lemma dry_step fileTags pattern file st :
  ApplyPattern_file true fileTags pattern file st =
  (mkRun (AddAll (capture_times (files_state st) [file]) (collector st))
     (files_state st)
     (printed st ++
      [dry_line file
         (rendered (files_state st)
            (fst (fst (GetFileCaptureTime (files_state st) file)))
            (snd (fst (GetFileCaptureTime (files_state st) file))) file
            (AddAll (capture_times (files_state st) [file]) (collector st))
            fileTags pattern)]), nil).
Proof.
  rewrite ApplyPattern_file_spec. unfold capture_times. simpl.
  by destruct (GetFileCaptureTime (files_state st) file) as [[t exifData] [e|]].
Qed.

Lemma dry_loop_collector fileTags pattern files st :
  collector (fst (ApplyPattern_loop true fileTags pattern files st))
  = AddAll (capture_times (files_state st) files) (collector st).
Proof.
  revert st. induction files as [|file rest IH]; intros st; [done|].
  simpl. rewrite dry_step. cbv beta iota delta [nil].
  rewrite IH. cbn [files_state collector].
  by rewrite <- AddAll_app, <- capture_times_app.
Qed.

Lemma wet_loop_printed fileTags pattern files st :
  printed (fst (ApplyPattern_loop false fileTags pattern files st)) = printed st.
Proof.
  revert st. induction files as [|file rest IH]; intros st; [done|].
  simpl.
  assert (printed (fst (ApplyPattern_file false fileTags pattern file st))
          = printed st) as Hstep.
  { rewrite ApplyPattern_file_spec.
    destruct (GetFileCaptureTime (files_state st) file) as [[t exifData] err].
    cbv zeta. by destruct (os_Rename _ _ _). }
  destruct (ApplyPattern_file false fileTags pattern file st) as [st' [e|]];
    [done|]. by rewrite IH.
Qed.

End BatchFacts.

(** X14: in a dry run the file system is left as it is, no error is
    returned, and the collector at the end has been given the capture times
    of the files that have one, in the order of the files. The line of each
    file shows the name rendered with the collector as it is after the
    files up to and including that one. *)
Theorem dry_run_batch `{P : Platform} (fs : FS) (fileTags : list string)
    (pattern : string) (pre : list string) (file : string) (post : list string) :
  let files := pre ++ file :: post in
  let r := ApplyPattern true fs files fileTags pattern in
  snd r = nil /\
  files_state (fst r) = fs /\
  collector (fst r) = AddAll (capture_times fs files) NewDateIndexCollector /\
  length (printed (fst r)) = length files /\
  printed (fst r) !! length pre =
    Some (dry_line file
            (rendered fs
               (fst (fst (GetFileCaptureTime fs file)))
               (snd (fst (GetFileCaptureTime fs file))) file
               (AddAll (capture_times fs (pre ++ [file])) NewDateIndexCollector)
               fileTags pattern)).
Proof.
  intros files r. unfold r, ApplyPattern.
  set (st0 := mkRun NewDateIndexCollector fs []).
  destruct (dry_run_all fileTags pattern files st0) as (Herr & Hlen & Hfs).
  split; [exact Herr|]. split; [exact Hfs|].
  split; [apply (dry_loop_collector fileTags pattern files st0)|].
  split; [exact Hlen|].
  unfold files. rewrite ApplyPattern_loop_app.
  destruct (dry_run_all fileTags pattern pre st0) as (Herr1 & Hlen1 & Hfs1).
  pose proof (dry_loop_collector fileTags pattern pre st0) as Hc1.
  destruct (ApplyPattern_loop true fileTags pattern pre st0) as [st1 err1].
  simpl in Herr1, Hlen1, Hfs1, Hc1. subst err1. cbv beta iota delta [nil].
  simpl. rewrite dry_step. cbv beta iota delta [nil].
  match goal with |- context [ApplyPattern_loop true _ _ post ?st2] =>
    pose proof (printed_grows true fileTags pattern post st2) as [k Hk] end.
  rewrite Hk. cbn [printed].
  rewrite Hfs1, Hc1. cbn [files_state collector].
  rewrite <- app_assoc, lookup_app_r by lia.
  rewrite Hlen1. cbn [length Nat.add]. rewrite Nat.sub_diag. cbn [app lookup list_lookup].
  by rewrite <- AddAll_app, <- capture_times_app.
Qed.

(** X15: the loop ends at the first rename that fails: ApplyPattern
    returns the error of that rename and the files after it are not looked
    at. An error can only come from a rename, that is, without the dryrun
    flag; and without the flag nothing is printed. *)
Theorem first_failure_ends_the_batch `{P : Platform} (dryRun : bool)
    (fileTags : list string) (pattern : string)
    (pre : list string) (file : string) (post : list string)
    (st st1 st2 : Run) (e : string) :
  ApplyPattern_loop dryRun fileTags pattern pre st = (st1, nil) ->
  ApplyPattern_file dryRun fileTags pattern file st1 = (st2, Some e) ->
  ApplyPattern_loop dryRun fileTags pattern (pre ++ file :: post) st = (st2, Some e) /\
  dryRun = false /\
  (exists name, os_Rename (files_state st1) file name = (files_state st2, Some e)) /\
  printed st2 = printed st.
Proof.
  intros Hpre Hstep.
  split; [by rewrite ApplyPattern_loop_app, Hpre; simpl; rewrite Hstep|].
  assert (dryRun = false) as ->.
  { destruct dryRun; [|done]. rewrite dry_step in Hstep. discriminate. }
  split; [done|]. split.
  - rewrite ApplyPattern_file_spec in Hstep.
    destruct (GetFileCaptureTime (files_state st1) file) as [[t exifData] err].
    cbv zeta in Hstep.
    match type of Hstep with context [os_Rename _ _ ?n] => exists n end.
    destruct (os_Rename _ _ _) as [fs' err']. by injection Hstep as <- ->.
  - pose proof (wet_loop_printed fileTags pattern pre st) as H1.
    pose proof (wet_loop_printed fileTags pattern [file] st1) as H2.
    rewrite Hpre in H1. simpl in H1, H2. rewrite Hstep in H2. simpl in H2.
    congruence.
Qed.

Lemma first_failure_ends_the_batch_witness :
  let tags := ExtractFileOutputTags scenario_pattern in
  let r := ApplyPattern (P := Ref.platform) false sample_fs
             ["a.jpg"; "zz.jpg"; "b.jpg"] tags scenario_pattern in
  snd r = Some "no such file or directory" /\
  files_state (fst r) !! "201603_000001.jpg" = sample_fs !! "a.jpg" /\
  files_state (fst r) !! "b.jpg" = sample_fs !! "b.jpg".
Proof.
  intros tags r.
  set (st := mkRun (P := Ref.platform) NewDateIndexCollector sample_fs []).
  set (first := ApplyPattern_loop (P := Ref.platform) false tags
                  scenario_pattern ["a.jpg"] st).
  set (second := ApplyPattern_file (P := Ref.platform) false tags
                   scenario_pattern "zz.jpg" (fst first)).
  assert (snd first = nil) as Hnil by (vm_compute; reflexivity).
  assert (snd second = Some "no such file or directory") as Herr
    by (vm_compute; reflexivity).
  assert (first = (fst first, nil)) as Hpre
    by (rewrite <- Hnil; apply surjective_pairing).
  assert (second = (fst second, Some "no such file or directory")) as Hstep
    by (rewrite <- Herr; apply surjective_pairing).
  destruct (first_failure_ends_the_batch (P := Ref.platform) false tags
              scenario_pattern ["a.jpg"] "zz.jpg" ["b.jpg"] st (fst first)
              (fst second) "no such file or directory" Hpre Hstep) as (Hall & _).
  unfold r, ApplyPattern. fold st.
  change ["a.jpg"; "zz.jpg"; "b.jpg"] with (["a.jpg"] ++ "zz.jpg" :: ["b.jpg"]).
  rewrite Hall. split; [reflexivity|]. split; vm_compute; reflexivity.
Defined.

Section IndexFacts.

Context {P : Platform}.

Lemma capture_times_length fs files :
  (length (capture_times fs files) <= length files)%nat.
Proof.
  induction files as [|file rest IH]; [done|].
  change (file :: rest) with ([file] ++ rest).
  rewrite capture_times_app, !length_app.
  assert (length (capture_times fs [file]) <= 1)%nat as H1.
  { unfold capture_times. simpl.
    destruct (GetFileCaptureTime fs file) as [[t exifData] [e|]]; simpl; lia. }
  change (length [file]) with 1%nat. lia.
Qed.

End IndexFacts.

(** X16: File.Index is the number of files, up to and including the file
    itself, whose capture time could be determined, in six digits; it is
    not the position of the file in the sequence, and a file without a
    capture time shows the index of the last file that had one. *)
Theorem File_Index_counts_captured `{P : Platform} (fs : FS) (t : Time)
    (exifData : Exif) (file : string) (fileMeta : FileInfo)
    (pre : list string) :
  os_Stat fs file = Ok fileMeta ->
  Z.of_nat (length (pre ++ [file])) <= GoInt.max_int ->
  let c := AddAll (capture_times fs (pre ++ [file])) NewDateIndexCollector in
  GetTagValue fs t exifData file "File.Index" c
    = ((Sprintf_0d 6 (Z.of_nat (length (capture_times fs (pre ++ [file])))), nil), c) /\
  (snd (GetFileCaptureTime fs file) <> nil ->
   capture_times fs (pre ++ [file]) = capture_times fs pre).
Proof.
  intros Hstat Hlen c. split.
  - rewrite GetTagValue_single by reflexivity. unfold resolve.
    change (ParseTagProperties "File.Index") with ("File", ["Index"]).
    cbv iota. change (String.eqb "File" "File") with true. cbv iota.
    destruct (GetFileTagValue_indices fs t file "File" [] c fileMeta Hstat)
      as (HI & _).
    rewrite HI. simpl.
    destruct (AddAll_counts (capture_times fs (pre ++ [file]))) as (HC & _).
    { pose proof (capture_times_length fs (pre ++ [file])). lia. }
    fold c in HC. by rewrite HC.
  - intros Herr. unfold capture_times. rewrite omap_app. simpl.
    destruct (GetFileCaptureTime fs file) as [[t' exifData'] [e|]]; [|done].
    by rewrite app_nil_r.
Qed.

Lemma File_Index_counts_captured_witness :
  let r := ApplyPattern (P := Ref.platform) true sample_fs ["b.jpg"; "c.jpg"; "a.jpg"]
             ["File.Index"] "{File.Index}" in
  GetTagValue (P := Ref.platform) sample_fs zeroTime (Some sample_exif) "c.jpg"
    "File.Index"
    (AddAll (capture_times (P := Ref.platform) sample_fs (["b.jpg"] ++ ["c.jpg"]))
       NewDateIndexCollector)
  = (("000001", nil),
     AddAll (capture_times (P := Ref.platform) sample_fs (["b.jpg"] ++ ["c.jpg"]))
       NewDateIndexCollector) /\
  printed (fst r)
  = [dry_line "b.jpg" "000001"; dry_line "c.jpg" "000001"; dry_line "a.jpg" "000002"].
Proof.
  intros r. split; [|by vm_compute].
  assert (Z.of_nat (length (["b.jpg"] ++ ["c.jpg"])) <= GoInt.max_int) as Hlen
    by (vm_compute; discriminate).
  destruct (File_Index_counts_captured (P := Ref.platform) sample_fs zeroTime
    (Some sample_exif) "c.jpg" (mkFileInfo "c.jpg" 2048 (Ref.utc 2016 3 5 12 0 0))
    ["b.jpg"] eq_refl Hlen) as (H & _).
  exact H.
Defined.

(** ** Patterns put together *)

Section ScannerCompose.

Lemma scan_step_shift pre tgs st buf r :
  scan_step (mkScanner (pre ++ tgs) st buf) r =
  let sc := scan_step (mkScanner tgs st buf) r in
  mkScanner (pre ++ tags sc) (state sc) (tag sc).
Proof.
  unfold scan_step. simpl.
  destruct (st =? 0); [by destruct (Ascii.eqb r "{")|].
  destruct (st =? 1); [|done].
  destruct (Ascii.eqb r "}"); simpl; [by rewrite app_assoc | done].
Qed.

Lemma scan_shift pre tgs st buf s :
  scan (mkScanner (pre ++ tgs) st buf) s =
  let sc := scan (mkScanner tgs st buf) s in
  mkScanner (pre ++ tags sc) (state sc) (tag sc).
Proof.
  revert tgs st buf. induction s as [|r s IH]; intros tgs st buf; [done|].
  rewrite !scan_cons, scan_step_shift. cbv zeta.
  destruct (scan_step (mkScanner tgs st buf) r) as [tgs' st' buf'].
  apply IH.
Qed.

(** Outside a tag the buffer left by the tag before does not matter. *)
Lemma scan_outside_buffer tgs buf buf' s :
  tags (scan (mkScanner tgs 0 buf) s) = tags (scan (mkScanner tgs 0 buf') s).
Proof.
  induction s as [|r s IH]; [done|].
  rewrite !scan_cons. unfold scan_step. simpl.
  by destruct (Ascii.eqb r "{").
Qed.

End ScannerCompose.

(** X17: when the scan of a pattern ends outside a tag (every opening brace
    that starts a tag is closed), the tags of the pattern followed by
    another pattern are the tags of the first followed by the tags of the
    second. *)
Theorem ExtractFileOutputTags_append (a b : string) :
  state (scan (mkScanner [] 0 EmptyString) a) = OUTSIDE ->
  ExtractFileOutputTags (a +:+ b)
  = ExtractFileOutputTags a ++ ExtractFileOutputTags b.
Proof.
  intros Hout. unfold ExtractFileOutputTags. rewrite scan_app.
  destruct (scan (mkScanner [] 0 EmptyString) a) as [tgs st buf].
  simpl in *. subst st. unfold OUTSIDE.
  rewrite <- (app_nil_r tgs) at 1. rewrite scan_shift. simpl.
  f_equal. apply scan_outside_buffer.
Qed.

Lemma ExtractFileOutputTags_append_witness :
  ExtractFileOutputTags ("{DateTime.Year}_" +:+ "{Make}.{File.Extension}")
  = ["DateTime.Year"] ++ ["Make"; "File.Extension"].
Proof.
  exact (ExtractFileOutputTags_append "{DateTime.Year}_" "{Make}.{File.Extension}"
           eq_refl).
Defined.

(** X18: a file whose capture time is determined and which can be stat'ed
    shows, as File.IndexByCaptureDate, one more than the number of files
    before it whose capture time fell on the same day, in six digits: the
    first file of a day is 000001. Files without a capture time are not
    counted. *)
Theorem IndexByCaptureDate_is_rank `{P : Platform} (fs : FS) (exifData : Exif)
    (file : string) (fileMeta : FileInfo) (timestamp : Time) (pre : list string) :
  os_Stat fs file = Ok fileMeta ->
  GetFileCaptureTime fs file = (timestamp, exifData, nil) ->
  Z.of_nat (length (pre ++ [file])) <= GoInt.max_int ->
  let c := AddAll (capture_times fs (pre ++ [file])) NewDateIndexCollector in
  GetTagValue fs timestamp exifData file "File.IndexByCaptureDate" c
    = ((Sprintf_0d 6
          (in_day (Year timestamp) (Month timestamp) (Day timestamp)
             (capture_times fs pre) + 1), nil), c).
Proof.
  intros Hstat Hcap Hlen c.
  rewrite (GetTagValue_IndexByCaptureDate _ _ _ _ _ fileMeta) by done.
  assert (capture_times fs (pre ++ [file]) = capture_times fs pre ++ [timestamp])
    as Htimes.
  { unfold capture_times. rewrite omap_app. simpl. by rewrite Hcap. }
  destruct (AddAll_counts (capture_times fs (pre ++ [file]))) as (_ & _ & _ & HD).
  { pose proof (capture_times_length fs (pre ++ [file])). lia. }
  fold c in HD. rewrite HD, Htimes. unfold in_day.
  by rewrite count_snoc, decide_True.
Qed.

Lemma IndexByCaptureDate_is_rank_witness :
  GetTagValue (P := Ref.platform) sample_fs (Ref.utc 2016 3 4 10 0 0)
    (Some sample_exif) "b.jpg" "File.IndexByCaptureDate"
    (AddAll (capture_times (P := Ref.platform) sample_fs
               (["d.jpg"; "c.jpg"; "a.jpg"] ++ ["b.jpg"]))
       NewDateIndexCollector)
  = ((Sprintf_0d 6
        (in_day 2016 3 4
           (capture_times (P := Ref.platform) sample_fs ["d.jpg"; "c.jpg"; "a.jpg"])
         + 1), nil),
     AddAll (capture_times (P := Ref.platform) sample_fs
               (["d.jpg"; "c.jpg"; "a.jpg"] ++ ["b.jpg"]))
       NewDateIndexCollector).
Proof.
  assert (Z.of_nat (length (["d.jpg"; "c.jpg"; "a.jpg"] ++ ["b.jpg"]))
          <= GoInt.max_int) as Hlen by (vm_compute; discriminate).
  exact (IndexByCaptureDate_is_rank (P := Ref.platform) sample_fs (Some sample_exif)
    "b.jpg" (mkFileInfo "b.jpg" 2048 (Ref.utc 2016 3 5 12 0 0))
    (Ref.utc 2016 3 4 10 0 0) ["d.jpg"; "c.jpg"; "a.jpg"] eq_refl eq_refl Hlen).
Defined.
